(** * Totals and tax calculation engine (TotalsService)

    A shallow embedding of the [TotalsService] class of the medusa package
    (subtotal, shipping, discount, gift-card, tax and refund totals of a
    cart or an order) together with the properties its specification states.

    Conventions of the model.
    - A JavaScript [number] is a rational ([Q]); every finite double is
      one.  Sums and products of amounts and quantities are exact, as they
      are in doubles for integers below 2^53.  Where a rate or an unrounded
      quotient enters a value that the source rounds or returns (the
      flat-rate tax of [getTaxTotal] and of [getShippingMethodTotals],
      [getLineItemRefund], the percentage of [calculateDiscount_], the
      unit amount of an id listed again in [getAllocationMap]) each
      operation is rounded to the nearest double ([fdiv], [fmul], [fadd],
      [fsub]): there the doubles and the exact values differ on ordinary
      inputs (50 at 29% is 14.499999999999998, which rounds to 14).  The
      tax of a line in the legacy line totals, which nothing rounds to an
      integer, is kept exact.  The exponent range is not bounded, and
      [NaN] and the infinities have no counterpart: overflow, underflow
      and a division by zero are outside the model, and the properties
      that read a quotient by a quantity assume the quantity is not 0.
    - An [async] method that awaits a collaborator returns a [result]: the
      value of the promise, or the error it is rejected with.  The two
      methods that never await a collaborator nor throw
      ([getAllocationMap], [getCalculationContext]) are plain functions.
    - A relation the source guards against being [undefined]
      ([tax_lines], [adjustments], [discounts], [swaps], [claims],
      [gift_cards]) is an [option]; a relation the source dereferences
      without a guard ([items], [shipping_methods], [region]) is loaded.
    - The plain object used as allocation map is a finite map over the
      line-item ids; an id that names a property every object inherits
      ([objectPrototypeKeys]) is looked up like any other. *)

From Stdlib Require Import QArith Qround Qminmax Qabs Qpower Lqa ZArith Lia List String Bool.
From stdpp Require Import gmap strings.
Import ListNotations.

Local Open Scope Q_scope.

(** ** Errors and the result of an asynchronous call *)

Inductive MedusaErrorType : Type :=
| UNEXPECTED_STATE
| INVALID_DATA.

Inductive error : Type :=
| MedusaError (type : MedusaErrorType) (message : string)
| TypeError (message : string)
| CollaboratorError (message : string).

Inductive result (A : Type) : Type :=
| Ok (value : A)
| Throw (e : error).

Arguments Ok {A} value.
Arguments Throw {A} e.

#[global] Instance result_ret : MRet result := fun _ a => Ok a.

#[global] Instance result_bind : MBind result := fun _ _ k m =>
  match m with
  | Ok a => k a
  | Throw e => Throw e
  end.

(** A [for ... of] loop with an awaited body and an accumulator. *)
Fixpoint foldM {A B : Type} (f : B -> A -> result B) (l : list A) (acc : B)
  : result B :=
  match l with
  | [] => Ok acc
  | x :: l' => acc' ← f acc x; foldM f l' acc'
  end.

(** ** Numbers *)

(** [Math.round]: the closest integer, a tie going to the integer closer
    to plus infinity. *)
Definition Math_round (value : Q) : Q := inject_Z (Qfloor (value + (1 # 2))).

(** [a < b] on numbers, as a boolean. *)
Definition Qltb (a b : Q) : bool := negb (Qle_bool b a).

(** *** Double-precision arithmetic *)

(** The exponent [e] of a positive number: [2^e <= x < 2^(e+1)]. *)
Definition binade (x : Q) : Z :=
  let e0 := (Z.log2 (Qnum x) - Z.log2 (Zpos (Qden x)))%Z in
  if Qle_bool (2 ^ e0) x then e0 else (e0 - 1)%Z.

(** The nearest integer of a non-negative number, a tie going to the even
    one. *)
Definition roundHalfEven (x : Q) : Z :=
  let f := Qfloor x in
  match Qcompare (x - inject_Z f) (1 # 2) with
  | Lt => f
  | Gt => (f + 1)%Z
  | Eq => if Z.even f then f else (f + 1)%Z
  end.

(** The nearest number with a significand of 53 bits, for a positive
    number. *)
Definition fl_pos (x : Q) : Q :=
  let ulp := 2 ^ (binade x - 52) in
  inject_Z (roundHalfEven (x / ulp)) * ulp.

(** The nearest double (round to nearest, ties to even), in lowest terms. *)
Definition fl (x : Q) : Q :=
  let x := Qred x in
  match Qnum x with
  | Z0 => 0
  | Zpos _ => Qred (fl_pos x)
  | Zneg _ => Qred (- fl_pos (- x))
  end.

(** [a * b], [a / b], [a + b] and [a - b] on doubles. *)
Definition fmul (a b : Q) : Q := fl (a * b).
Definition fdiv (a b : Q) : Q := fl (a / b).
Definition fadd (a b : Q) : Q := fl (a + b).
Definition fsub (a b : Q) : Q := fl (a - b).

(** The unit roundoff of doubles, [2^-53]. *)
Definition unitRoundoff : Q := 1 # 9007199254740992.

(** ** Data model *)

Inductive DiscountRuleType : Type :=
| FIXED
| PERCENTAGE
| FREE_SHIPPING.

Definition DiscountRuleType_eqb (a b : DiscountRuleType) : bool :=
  match a, b with
  | FIXED, FIXED | PERCENTAGE, PERCENTAGE | FREE_SHIPPING, FREE_SHIPPING => true
  | _, _ => false
  end.

Module DiscountRule.
Record t : Type := { type : DiscountRuleType }.
End DiscountRule.

Module Discount.
Record t : Type := { id : string; rule : DiscountRule.t }.
End Discount.

Module LineItemAdjustment.
Record t : Type := { discount_id : option string; amount : Q }.
End LineItemAdjustment.

(** [LineItemTaxLine | ShippingMethodTaxLine]: the source tells them apart
    with ["shipping_method_id" in line]. *)
Inductive TaxLine : Type :=
| LineItemTaxLine (rate : Q) (item_id : string)
| ShippingMethodTaxLine (rate : Q) (shipping_method_id : string).

Definition rate (l : TaxLine) : Q :=
  match l with
  | LineItemTaxLine r _ => r
  | ShippingMethodTaxLine r _ => r
  end.

Module LineItem.
Record t : Type := {
    id : string;
    unit_price : Q;
    quantity : Q;
    allow_discounts : bool;
    includes_tax : bool;
    is_return : bool;
    tax_lines : option (list TaxLine);
    adjustments : option (list LineItemAdjustment.t);
    variant_id : option string;
  }.
End LineItem.

Module ShippingMethod.
Record t : Type := {
    id : string;
    price : Q;
    includes_tax : bool;
    tax_lines : option (list TaxLine);
  }.
End ShippingMethod.

Module Region.
Record t : Type := {
    automatic_taxes : bool;
    gift_cards_taxable : bool;
    currency_code : string;
  }.
End Region.

Module GiftCard.
Record t : Type := { id : string; balance : Q }.
End GiftCard.

Module GiftCardTransaction.
Record t : Type := {
    gift_card_id : string;
    amount : Q;
    is_taxable : bool;
    tax_rate : option Q;
  }.
End GiftCardTransaction.

(** Entities the engine only hands over to its collaborators. *)
Module Address.
Record t : Type := { id : string; country_code : string }.
End Address.

Module Customer.
Record t : Type := { id : string }.
End Customer.

Module Swap.
Record t : Type := { additional_items : list LineItem.t }.
End Swap.

Module ClaimOrder.
Record t : Type := { additional_items : list LineItem.t }.
End ClaimOrder.

Inductive CartType : Type :=
| CartDefault
| CartSwap
| CartDraftOrder
| CartPaymentLink
| CartClaim.

Module Cart.
Record t : Type := {
    type : CartType;
    items : list LineItem.t;
    discounts : option (list Discount.t);
    gift_cards : option (list GiftCard.t);
    shipping_methods : list ShippingMethod.t;
    region : Region.t;
    shipping_address : option Address.t;
    customer : option Customer.t;
  }.
End Cart.

Module Order.
Record t : Type := {
    tax_rate : option Q;
    items : list LineItem.t;
    discounts : option (list Discount.t);
    gift_cards : option (list GiftCard.t);
    gift_card_transactions : option (list GiftCardTransaction.t);
    shipping_methods : list ShippingMethod.t;
    region : Region.t;
    shipping_address : option Address.t;
    customer : option Customer.t;
    swaps : option (list Swap.t);
    claims : option (list ClaimOrder.t);
  }.
End Order.

(** The union [Cart | Order] of the method signatures. *)
Inductive CartOrOrder : Type :=
| ACart (cart : Cart.t)
| AnOrder (order : Order.t).

(** Modelled from the spec: the type guards [isCart] and [isOrder] of
    [types/cart] and [types/orders], which the source only imports; they
    tell which member of the union [Cart | Order] an aggregate is. *)
Definition isCart (x : CartOrOrder) : bool :=
  match x with ACart _ => true | AnOrder _ => false end.

Definition isOrder (x : CartOrOrder) : bool :=
  match x with ACart _ => false | AnOrder _ => true end.

(** Modelled from the spec: [isDefined] of the utils package, which the
    source only imports; a field is defined when it has been populated. *)
Definition isDefined {A : Type} (v : option A) : bool :=
  match v with Some _ => true | None => false end.

Module CO.
Definition items (x : CartOrOrder) : list LineItem.t :=
    match x with ACart c => Cart.items c | AnOrder o => Order.items o end.
Definition discounts (x : CartOrOrder) : option (list Discount.t) :=
    match x with ACart c => Cart.discounts c | AnOrder o => Order.discounts o end.
Definition gift_cards (x : CartOrOrder) : option (list GiftCard.t) :=
    match x with ACart c => Cart.gift_cards c | AnOrder o => Order.gift_cards o end.
Definition gift_card_transactions (x : CartOrOrder)
    : option (list GiftCardTransaction.t) :=
    match x with ACart _ => None | AnOrder o => Order.gift_card_transactions o end.
Definition shipping_methods (x : CartOrOrder) : list ShippingMethod.t :=
    match x with
    | ACart c => Cart.shipping_methods c
    | AnOrder o => Order.shipping_methods o
    end.
Definition region (x : CartOrOrder) : Region.t :=
    match x with ACart c => Cart.region c | AnOrder o => Order.region o end.
Definition shipping_address (x : CartOrOrder) : option Address.t :=
    match x with
    | ACart c => Cart.shipping_address c
    | AnOrder o => Order.shipping_address o
    end.
Definition customer (x : CartOrOrder) : option Customer.t :=
    match x with ACart c => Cart.customer c | AnOrder o => Order.customer o end.
Definition swaps (x : CartOrOrder) : option (list Swap.t) :=
    match x with ACart _ => None | AnOrder o => Order.swaps o end.
Definition claims (x : CartOrOrder) : option (list ClaimOrder.t) :=
    match x with ACart _ => None | AnOrder o => Order.claims o end.
  (** [isOrder(x) && x.tax_rate != null] reads [Some rate] here. *)
Definition tax_rate (x : CartOrOrder) : option Q :=
    match x with ACart _ => None | AnOrder o => Order.tax_rate o end.
End CO.

(** ** Totals types ([types/totals] and the local types of the service) *)

Module DiscountAllocation.
Record t : Type := { amount : Q; unit_amount : Q }.
End DiscountAllocation.

(** An entry of the allocation map: [{ discount?: DiscountAllocation }]. *)
Module LineAllocation.
Record t : Type := { discount : option DiscountAllocation.t }.
End LineAllocation.

Abbreviation LineAllocationsMap := (gmap string LineAllocation.t).

Module LineDiscountAmount.
Record t : Type := {
    item : LineItem.t;
    amount : Q;
    customAdjustmentsAmount : Q;
  }.
End LineDiscountAmount.

Module TaxCalculationContext.
Record t : Type := {
    shipping_address : option Address.t;
    shipping_methods : list ShippingMethod.t;
    customer : option Customer.t;
    region : Region.t;
    is_return : bool;
    allocation_map : LineAllocationsMap;
  }.
End TaxCalculationContext.

Module ShippingMethodTotals.
Record t : Type := {
    price : Q;
    tax_total : Q;
    total : Q;
    subtotal : Q;
    original_total : Q;
    original_tax_total : Q;
    tax_lines : list TaxLine;
  }.
End ShippingMethodTotals.

Module LineItemTotals.
Record t : Type := {
    unit_price : Q;
    quantity : Q;
    subtotal : Q;
    tax_total : Q;
    total : Q;
    original_total : Q;
    original_tax_total : Q;
    tax_lines : list TaxLine;
    discount_total : Q;
    raw_discount_total : Q;
  }.
End LineItemTotals.

Module GiftCardTotals.
Record t : Type := { total : Q; tax_total : Q }.
End GiftCardTotals.

(** Option records; an absent flag is [false]. *)
Module GetShippingMethodTotalsOptions.
Record t : Type := {
    include_tax : bool;
    use_tax_lines : bool;
    calculation_context : option TaxCalculationContext.t;
  }.
End GetShippingMethodTotalsOptions.

Module LineItemTotalsOptions.
Record t : Type := {
    include_tax : bool;
    use_tax_lines : bool;
    exclude_gift_cards : bool;
    calculation_context : option TaxCalculationContext.t;
  }.
End LineItemTotalsOptions.

Module GetTotalsOptions.
Record t : Type := { exclude_gift_cards : bool; force_taxes : bool }.
End GetTotalsOptions.

Module AllocationMapOptions.
Record t : Type := { exclude_gift_cards : bool; exclude_discounts : bool }.
End AllocationMapOptions.

Module CalculationContextOptions.
Record t : Type := {
    is_return : bool;
    exclude_shipping : bool;
    exclude_gift_cards : bool;
    exclude_discounts : bool;
  }.
End CalculationContextOptions.

Module SubtotalOptions.
Record t : Type := { excludeNonDiscounts : bool }.
End SubtotalOptions.

Module GiftCardTotalOptions.
Record t : Type := { gift_cardable : option Q }.
End GiftCardTotalOptions.

(** ** Collaborators *)

(** The injected services of the constructor.  Each capability is a
    promise-returning method, hence a [result]. *)
Record TotalsService : Type := {
  (** [taxProviderService_.getTaxLines(items, context)] *)
  taxProviderService_ :
    list LineItem.t -> TaxCalculationContext.t -> result (list TaxLine);
  (** [newTotalsService_.getGiftCardTotals(amount, {region, giftCards,
      giftCardTransactions})] *)
  newTotalsService_ :
    Q -> Region.t -> list GiftCard.t -> list GiftCardTransaction.t ->
    result GiftCardTotals.t;
  (** [taxCalculationStrategy_.calculate(items, taxLines, context)] *)
  taxCalculationStrategy_ :
    list LineItem.t -> list TaxLine -> TaxCalculationContext.t -> result Q;
  (** [featureFlagRouter_.isFeatureEnabled(key)] *)
  featureFlagRouter_ : string -> bool;
}.

(** What the service imports from modules whose source is not part of the
    development: the price-tax helper of [utils] (arguments [price],
    [taxRate], [includesTax]) and the key of the tax-inclusive-pricing
    feature flag. *)
Class Imports : Type := {
  calculatePriceTaxAmount : Q -> Q -> bool -> Q;
  TaxInclusivePricingFeatureFlag_key : string;
}.

(** ** The service *)

Section Service.
Context `{Imports}.

(** [rounded(value)]: "Rounds a number using Math.round". *)
Definition rounded (value : Q) : Q := Math_round value.

(** [l.reduce((total, adjustment) => total + adjustment.amount, 0)] *)
Definition sumAdjustments (l : list LineItemAdjustment.t) : Q :=
  fold_left (fun total adjustment => total + LineItemAdjustment.amount adjustment) l 0.

(** [adjustment.discount_id === id] and [adjustment.discount_id === null] *)
Definition discount_id_is (id : option string) (adjustment : LineItemAdjustment.t)
  : bool :=
  match LineItemAdjustment.discount_id adjustment, id with
  | Some a, Some b => String.eqb a b
  | None, None => true
  | _, _ => false
  end.

(** The items of the aggregate followed by the additional items of its
    swaps, then of its claims. *)
Definition mergedItems (cartOrOrder : CartOrOrder) : list LineItem.t :=
  let merged := CO.items cartOrOrder in
  let merged :=
    fold_left (fun merged s => merged ++ Swap.additional_items s)
      (default [] (CO.swaps cartOrOrder)) merged in
  fold_left (fun merged c => merged ++ ClaimOrder.additional_items c)
    (default [] (CO.claims cartOrOrder)) merged.

(** The callback of the [merged.map(...)] of [getLineDiscounts]. *)
Definition lineDiscountAmount (discount : option Discount.t) (item : LineItem.t)
  : LineDiscountAmount.t :=
  let adjustments := default [] (LineItem.adjustments item) in
  let discountAdjustments :=
    match discount with
    | Some d => List.filter (discount_id_is (Some (Discount.id d))) adjustments
    | None => []
    end in
  let customAdjustments := List.filter (discount_id_is None) adjustments in
  {| LineDiscountAmount.item := item;
     LineDiscountAmount.amount :=
       if LineItem.allow_discounts item
       then sumAdjustments discountAdjustments else 0;
     LineDiscountAmount.customAdjustmentsAmount :=
       sumAdjustments customAdjustments |}.

Definition getLineDiscounts (cartOrOrder : CartOrOrder) (discount : option Discount.t)
  : list LineDiscountAmount.t :=
  map (lineDiscountAmount discount) (mergedItems cartOrOrder).

(** One turn of the loop of [getAllocationMap]: an entry already present
    for the id gets its [discount] replaced, the unit amount left
    unrounded; a fresh entry gets the unit amount rounded. *)
Definition allocate (allocationMap : LineAllocationsMap) (ld : LineDiscountAmount.t)
  : LineAllocationsMap :=
  let adjustmentAmount :=
    LineDiscountAmount.amount ld + LineDiscountAmount.customAdjustmentsAmount ld in
  let item := LineDiscountAmount.item ld in
  match allocationMap !! LineItem.id item with
  | Some _ =>
      <[LineItem.id item :=
          {| LineAllocation.discount := Some
               {| DiscountAllocation.amount := adjustmentAmount;
                  DiscountAllocation.unit_amount :=
                    fdiv adjustmentAmount (LineItem.quantity item) |} |}]> allocationMap
  | None =>
      <[LineItem.id item :=
          {| LineAllocation.discount := Some
               {| DiscountAllocation.amount := adjustmentAmount;
                  DiscountAllocation.unit_amount :=
                    Math_round (adjustmentAmount / LineItem.quantity item) |} |}]>
        allocationMap
  end.

Definition is_free_shipping (d : Discount.t) : bool :=
  DiscountRuleType_eqb (DiscountRule.type (Discount.rule d)) FREE_SHIPPING.

Definition getAllocationMap (orderOrCart : CartOrOrder)
  (options : AllocationMapOptions.t) : LineAllocationsMap :=
  if AllocationMapOptions.exclude_discounts options then ∅
  else
    let discount :=
      match CO.discounts orderOrCart with
      | Some ds => List.find (fun d => negb (is_free_shipping d)) ds
      | None => None
      end in
    let lineDiscounts := getLineDiscounts orderOrCart discount in
    fold_left allocate lineDiscounts ∅.

Definition getCalculationContext (calculationContextData : CartOrOrder)
  (options : CalculationContextOptions.t) : TaxCalculationContext.t :=
  let allocationMap :=
    getAllocationMap calculationContextData
      {| AllocationMapOptions.exclude_gift_cards :=
           CalculationContextOptions.exclude_gift_cards options;
         AllocationMapOptions.exclude_discounts :=
           CalculationContextOptions.exclude_discounts options |} in
  let shippingMethods :=
    if CalculationContextOptions.exclude_shipping options then []
    else CO.shipping_methods calculationContextData in
  {| TaxCalculationContext.shipping_address := CO.shipping_address calculationContextData;
     TaxCalculationContext.shipping_methods := shippingMethods;
     TaxCalculationContext.customer := CO.customer calculationContextData;
     TaxCalculationContext.region := CO.region calculationContextData;
     TaxCalculationContext.is_return := CalculationContextOptions.is_return options;
     TaxCalculationContext.allocation_map := allocationMap |}.

(** The default [options = {}] of [getCalculationContext]. *)
Definition noContextOptions : CalculationContextOptions.t :=
  {| CalculationContextOptions.is_return := false;
     CalculationContextOptions.exclude_shipping := false;
     CalculationContextOptions.exclude_gift_cards := false;
     CalculationContextOptions.exclude_discounts := false |}.

Definition with_shipping_methods (c : TaxCalculationContext.t)
  (l : list ShippingMethod.t) : TaxCalculationContext.t :=
  {| TaxCalculationContext.shipping_address := TaxCalculationContext.shipping_address c;
     TaxCalculationContext.shipping_methods := l;
     TaxCalculationContext.customer := TaxCalculationContext.customer c;
     TaxCalculationContext.region := TaxCalculationContext.region c;
     TaxCalculationContext.is_return := TaxCalculationContext.is_return c;
     TaxCalculationContext.allocation_map := TaxCalculationContext.allocation_map c |}.

Definition with_allocation_map (c : TaxCalculationContext.t)
  (m : LineAllocationsMap) : TaxCalculationContext.t :=
  {| TaxCalculationContext.shipping_address := TaxCalculationContext.shipping_address c;
     TaxCalculationContext.shipping_methods := TaxCalculationContext.shipping_methods c;
     TaxCalculationContext.customer := TaxCalculationContext.customer c;
     TaxCalculationContext.region := TaxCalculationContext.region c;
     TaxCalculationContext.is_return := TaxCalculationContext.is_return c;
     TaxCalculationContext.allocation_map := m |}.

(** The tax-inclusive-pricing feature flag, as the router answers it. *)
Definition taxInclusivePricing (this : TotalsService) : bool :=
  featureFlagRouter_ this TaxInclusivePricingFeatureFlag_key.

(** Truthiness of an optional string ([lineItem.variant_id]). *)
Definition truthy (s : option string) : bool :=
  match s with
  | Some s => negb (String.eqb s "")
  | None => false
  end.

(** The block [if (totals.tax_lines.length > 0) { ... }] of
    [getShippingMethodTotals]: the strategy's amount for the method's tax
    lines, taken out of the subtotal of a tax-inclusive price and added to
    the totals otherwise. *)
Definition shippingMethodTax (this : TotalsService)
  (shippingMethod : ShippingMethod.t) (calculationContext : TaxCalculationContext.t)
  (totals : ShippingMethodTotals.t) : result ShippingMethodTotals.t :=
  if (0 <? length (ShippingMethodTotals.tax_lines totals))%nat then
    let includesTax :=
      taxInclusivePricing this && ShippingMethod.includes_tax shippingMethod in
    original_tax_total ←
      taxCalculationStrategy_ this [] (ShippingMethodTotals.tax_lines totals)
        calculationContext;
    let tax_total := original_tax_total in
    if includesTax then
      Ok {| ShippingMethodTotals.price := ShippingMethodTotals.price totals;
            ShippingMethodTotals.original_total :=
              ShippingMethodTotals.original_total totals;
            ShippingMethodTotals.total := ShippingMethodTotals.total totals;
            ShippingMethodTotals.subtotal :=
              ShippingMethodTotals.subtotal totals - tax_total;
            ShippingMethodTotals.original_tax_total := original_tax_total;
            ShippingMethodTotals.tax_total := tax_total;
            ShippingMethodTotals.tax_lines := ShippingMethodTotals.tax_lines totals |}
    else
      Ok {| ShippingMethodTotals.price := ShippingMethodTotals.price totals;
            ShippingMethodTotals.original_total :=
              ShippingMethodTotals.original_total totals + original_tax_total;
            ShippingMethodTotals.total :=
              ShippingMethodTotals.total totals + tax_total;
            ShippingMethodTotals.subtotal := ShippingMethodTotals.subtotal totals;
            ShippingMethodTotals.original_tax_total := original_tax_total;
            ShippingMethodTotals.tax_total := tax_total;
            ShippingMethodTotals.tax_lines := ShippingMethodTotals.tax_lines totals |}
  else Ok totals.

(** [cartOrOrder.discounts?.some((d) => d.rule.type === FREE_SHIPPING)] *)
Definition hasFreeShipping (cartOrOrder : CartOrOrder) : bool :=
  match CO.discounts cartOrOrder with
  | Some ds => existsb is_free_shipping ds
  | None => false
  end.

(** The block [if (hasFreeShipping) { ... }]. *)
Definition freeShippingOverride (cartOrOrder : CartOrOrder)
  (totals : ShippingMethodTotals.t) : ShippingMethodTotals.t :=
  if hasFreeShipping cartOrOrder then
    {| ShippingMethodTotals.price := ShippingMethodTotals.price totals;
       ShippingMethodTotals.original_total :=
         ShippingMethodTotals.original_total totals;
       ShippingMethodTotals.total := 0;
       ShippingMethodTotals.subtotal := 0;
       ShippingMethodTotals.original_tax_total :=
         ShippingMethodTotals.original_tax_total totals;
       ShippingMethodTotals.tax_total := 0;
       ShippingMethodTotals.tax_lines := ShippingMethodTotals.tax_lines totals |}
  else totals.

(** The block [if (isOrder(cartOrOrder) && cartOrOrder.tax_rate != null)
    { ... } else if (totals.tax_lines.length === 0) { ... }]: the flat-rate
    tax of a legacy order, or else the tax lines of the provider for a
    method that has none. *)
Definition shippingMethodTaxLines (this : TotalsService)
  (shippingMethod : ShippingMethod.t) (cartOrOrder : CartOrOrder)
  (calculationContext : TaxCalculationContext.t)
  (totals : ShippingMethodTotals.t) : result ShippingMethodTotals.t :=
  match CO.tax_rate cartOrOrder with
  | Some tax_rate =>
      Ok {| ShippingMethodTotals.price := ShippingMethodTotals.price totals;
            ShippingMethodTotals.original_total :=
              ShippingMethodTotals.original_total totals;
            ShippingMethodTotals.total := ShippingMethodTotals.total totals;
            ShippingMethodTotals.subtotal := ShippingMethodTotals.subtotal totals;
            ShippingMethodTotals.original_tax_total :=
              Math_round (fmul (ShippingMethodTotals.price totals) (fdiv tax_rate 100));
            ShippingMethodTotals.tax_total :=
              Math_round (fmul (ShippingMethodTotals.price totals) (fdiv tax_rate 100));
            ShippingMethodTotals.tax_lines := ShippingMethodTotals.tax_lines totals |}
  | None =>
      if (length (ShippingMethodTotals.tax_lines totals) =? 0)%nat then
        orderLines ←
          taxProviderService_ this (CO.items cartOrOrder) calculationContext;
        let tax_lines :=
          List.filter (fun ol =>
            match ol with
            | ShippingMethodTaxLine _ shipping_method_id =>
                String.eqb shipping_method_id (ShippingMethod.id shippingMethod)
            | LineItemTaxLine _ _ => false
            end) orderLines in
        if (length tax_lines =? 0)%nat && isOrder cartOrOrder then
          Throw (MedusaError UNEXPECTED_STATE
            "Tax Lines must be joined on shipping method to calculate taxes")
        else
          Ok {| ShippingMethodTotals.price := ShippingMethodTotals.price totals;
                ShippingMethodTotals.original_total :=
                  ShippingMethodTotals.original_total totals;
                ShippingMethodTotals.total := ShippingMethodTotals.total totals;
                ShippingMethodTotals.subtotal := ShippingMethodTotals.subtotal totals;
                ShippingMethodTotals.original_tax_total :=
                  ShippingMethodTotals.original_tax_total totals;
                ShippingMethodTotals.tax_total :=
                  ShippingMethodTotals.tax_total totals;
                ShippingMethodTotals.tax_lines := tax_lines |}
      else Ok totals
  end.

(** [getShippingMethodTotals].  The assignment
    [calculationContext.shipping_methods = [shippingMethod]] is the
    context handed to the collaborators from then on. *)
Definition getShippingMethodTotals (this : TotalsService)
  (shippingMethod : ShippingMethod.t) (cartOrOrder : CartOrOrder)
  (opts : GetShippingMethodTotalsOptions.t) : result ShippingMethodTotals.t :=
  let calculationContext :=
    with_shipping_methods
      (match GetShippingMethodTotalsOptions.calculation_context opts with
       | Some c => c
       | None =>
           getCalculationContext cartOrOrder
             {| CalculationContextOptions.is_return := false;
                CalculationContextOptions.exclude_shipping := true;
                CalculationContextOptions.exclude_gift_cards := false;
                CalculationContextOptions.exclude_discounts := false |}
       end) [shippingMethod] in
  let price := ShippingMethod.price shippingMethod in
  let totals :=
    {| ShippingMethodTotals.price := price;
       ShippingMethodTotals.original_total := price;
       ShippingMethodTotals.total := price;
       ShippingMethodTotals.subtotal := price;
       ShippingMethodTotals.original_tax_total := 0;
       ShippingMethodTotals.tax_total := 0;
       ShippingMethodTotals.tax_lines :=
         default [] (ShippingMethod.tax_lines shippingMethod) |} in
  totals ←
    (if GetShippingMethodTotalsOptions.include_tax opts then
       totals ←
         shippingMethodTaxLines this shippingMethod cartOrOrder calculationContext
           totals;
       shippingMethodTax this shippingMethod calculationContext totals
     else Ok totals);
  Ok (freeShippingOverride cartOrOrder totals).

(** The backward-compatible block of [getLineItemTotals] for an order of
    the old tax system: the tax included in the price is taken out of the
    subtotal, the tax is the flat rate on the subtotal net of discount. *)
Definition legacyLineItemTotals (this : TotalsService) (lineItem : LineItem.t)
  (tax_rate : Q) (lineItemTotals : LineItemTotals.t) : LineItemTotals.t :=
  let taxRate := tax_rate / 100 in
  let includesTax := taxInclusivePricing this && LineItem.includes_tax lineItem in
  let taxIncludedInPrice :=
    if negb (LineItem.includes_tax lineItem) then 0
    else Math_round
           (calculatePriceTaxAmount (LineItem.unit_price lineItem) taxRate includesTax) in
  let subtotal :=
    (LineItem.unit_price lineItem - taxIncludedInPrice) * LineItem.quantity lineItem in
  let original_tax_total := subtotal * taxRate in
  let tax_total := (subtotal - LineItemTotals.discount_total lineItemTotals) * taxRate in
  {| LineItemTotals.unit_price := LineItemTotals.unit_price lineItemTotals;
     LineItemTotals.quantity := LineItemTotals.quantity lineItemTotals;
     LineItemTotals.subtotal := subtotal;
     LineItemTotals.tax_total := tax_total;
     LineItemTotals.total := subtotal + tax_total;
     LineItemTotals.original_total :=
       LineItemTotals.original_total lineItemTotals + original_tax_total;
     LineItemTotals.original_tax_total := original_tax_total;
     LineItemTotals.tax_lines := LineItemTotals.tax_lines lineItemTotals;
     LineItemTotals.discount_total := LineItemTotals.discount_total lineItemTotals;
     LineItemTotals.raw_discount_total :=
       LineItemTotals.raw_discount_total lineItemTotals |}.

(** The tax lines of an item under the new tax system: the item's own
    (possibly undefined) on an order, under [use_tax_lines] and for a
    returned item, the provider's otherwise. *)
Definition lineItemTaxLines (this : TotalsService) (lineItem : LineItem.t)
  (cartOrOrder : CartOrOrder) (options : LineItemTotalsOptions.t)
  (calculationContext : TaxCalculationContext.t) : result (option (list TaxLine)) :=
  if LineItemTotalsOptions.use_tax_lines options || isOrder cartOrOrder then
    if negb (isDefined (LineItem.tax_lines lineItem))
       && truthy (LineItem.variant_id lineItem)
    then Throw (MedusaError UNEXPECTED_STATE
           "Tax Lines must be joined on items to calculate taxes")
    else Ok (LineItem.tax_lines lineItem)
  else if LineItem.is_return lineItem then
    if negb (isDefined (LineItem.tax_lines lineItem))
       && truthy (LineItem.variant_id lineItem)
    then Throw (MedusaError UNEXPECTED_STATE "Return Line Items must join tax lines")
    else Ok (LineItem.tax_lines lineItem)
  else
    lines ← taxProviderService_ this [lineItem] calculationContext;
    Ok (Some lines).

(** The block [if (lineItemTotals.tax_lines.length > 0) { ... }] of
    [getLineItemTotals], for the tax lines [tax_lines] the totals hold at
    that point. *)
Definition lineItemTax (this : TotalsService) (lineItem : LineItem.t)
  (calculationContext : TaxCalculationContext.t)
  (lineItemTotals : LineItemTotals.t) (tax_lines : list TaxLine)
  : result LineItemTotals.t :=
  let make subtotal tax_total total original_total original_tax_total :=
    {| LineItemTotals.unit_price := LineItemTotals.unit_price lineItemTotals;
       LineItemTotals.quantity := LineItemTotals.quantity lineItemTotals;
       LineItemTotals.subtotal := subtotal;
       LineItemTotals.tax_total := tax_total;
       LineItemTotals.total := total;
       LineItemTotals.original_total := original_total;
       LineItemTotals.original_tax_total := original_tax_total;
       LineItemTotals.tax_lines := tax_lines;
       LineItemTotals.discount_total := LineItemTotals.discount_total lineItemTotals;
       LineItemTotals.raw_discount_total :=
         LineItemTotals.raw_discount_total lineItemTotals |} in
  let subtotal := LineItemTotals.subtotal lineItemTotals in
  let total := LineItemTotals.total lineItemTotals in
  let original_total := LineItemTotals.original_total lineItemTotals in
  if (0 <? length tax_lines)%nat then
    tax_total ←
      taxCalculationStrategy_ this [lineItem] tax_lines calculationContext;
    let noDiscountContext := with_allocation_map calculationContext ∅ in
    original_tax_total ←
      taxCalculationStrategy_ this [lineItem] tax_lines noDiscountContext;
    if taxInclusivePricing this && LineItem.includes_tax lineItem then
      let subtotal :=
        subtotal
        + (LineItem.unit_price lineItem * LineItem.quantity lineItem
           - original_tax_total) in
      Ok (make subtotal tax_total (total + subtotal + tax_total)
            (original_total + subtotal + original_tax_total) original_tax_total)
    else
      Ok (make subtotal tax_total (total + tax_total)
            (original_total + original_tax_total) original_tax_total)
  else
    Ok (make subtotal (LineItemTotals.tax_total lineItemTotals) total original_total
          (LineItemTotals.original_tax_total lineItemTotals)).

(** [getLineItemTotals].  [lineItemTotals.tax_lines] may have been assigned
    [undefined] (an item without variant whose tax lines are not joined)
    when its [length] is read: that read is the [TypeError]. *)
Definition getLineItemTotals (this : TotalsService) (lineItem : LineItem.t)
  (cartOrOrder : CartOrOrder) (options : LineItemTotalsOptions.t)
  : result LineItemTotals.t :=
  let calculationContext :=
    match LineItemTotalsOptions.calculation_context options with
    | Some c => c
    | None =>
        getCalculationContext cartOrOrder
          {| CalculationContextOptions.is_return := false;
             CalculationContextOptions.exclude_shipping := true;
             CalculationContextOptions.exclude_gift_cards :=
               LineItemTotalsOptions.exclude_gift_cards options;
             CalculationContextOptions.exclude_discounts := false |}
    end in
  let lineItemAllocation :=
    default {| LineAllocation.discount := None |}
      (TaxCalculationContext.allocation_map calculationContext !! LineItem.id lineItem) in
  let subtotal :=
    if taxInclusivePricing this && LineItem.includes_tax lineItem
       && LineItemTotalsOptions.include_tax options
    then 0 else LineItem.unit_price lineItem * LineItem.quantity lineItem in
  let raw_discount_total :=
    match LineAllocation.discount lineItemAllocation with
    | Some d => DiscountAllocation.amount d
    | None => 0
    end in
  let discount_total := Math_round raw_discount_total in
  let own_tax_lines := default [] (LineItem.tax_lines lineItem) in
  let lineItemTotals :=
    {| LineItemTotals.unit_price := LineItem.unit_price lineItem;
       LineItemTotals.quantity := LineItem.quantity lineItem;
       LineItemTotals.subtotal := subtotal;
       LineItemTotals.tax_total := 0;
       LineItemTotals.total := subtotal - discount_total;
       LineItemTotals.original_total := subtotal;
       LineItemTotals.original_tax_total := 0;
       LineItemTotals.tax_lines := own_tax_lines;
       LineItemTotals.discount_total := discount_total;
       LineItemTotals.raw_discount_total := raw_discount_total |} in
  '(lineItemTotals, tax_lines) ←
    (if LineItemTotalsOptions.include_tax options then
       match CO.tax_rate cartOrOrder with
       | Some tax_rate =>
           Ok (legacyLineItemTotals this lineItem tax_rate lineItemTotals,
               Some own_tax_lines)
       | None =>
           taxLines ←
             lineItemTaxLines this lineItem cartOrOrder options calculationContext;
           Ok (lineItemTotals, taxLines)
       end
     else Ok (lineItemTotals, Some own_tax_lines));
  match tax_lines with
  | None =>
      Throw (TypeError "Cannot read properties of undefined (reading 'length')")
  | Some tax_lines =>
      lineItemTax this lineItem calculationContext lineItemTotals tax_lines
  end.

(** [getSubtotal]: the items' subtotals, rounded once at the end. *)
Definition getSubtotal (this : TotalsService) (cartOrOrder : CartOrOrder)
  (opts : SubtotalOptions.t) : result Q :=
  let getLineItemSubtotal (item : LineItem.t) : result Q :=
    totals ←
      getLineItemTotals this item cartOrOrder
        {| LineItemTotalsOptions.include_tax := true;
           LineItemTotalsOptions.use_tax_lines := false;
           LineItemTotalsOptions.exclude_gift_cards := true;
           LineItemTotalsOptions.calculation_context := None |};
    Ok (LineItemTotals.subtotal totals) in
  subtotal ←
    foldM (fun subtotal item =>
      if SubtotalOptions.excludeNonDiscounts opts then
        if LineItem.allow_discounts item then
          s ← getLineItemSubtotal item; Ok (subtotal + s)
        else Ok subtotal
      else
        s ← getLineItemSubtotal item; Ok (subtotal + s))
      (CO.items cartOrOrder) 0;
  Ok (rounded subtotal).

Definition getShippingTotal (this : TotalsService) (cartOrOrder : CartOrOrder)
  : result Q :=
  foldM (fun total shippingMethod =>
    totals ←
      getShippingMethodTotals this shippingMethod cartOrOrder
        {| GetShippingMethodTotalsOptions.include_tax := true;
           GetShippingMethodTotalsOptions.use_tax_lines := false;
           GetShippingMethodTotalsOptions.calculation_context := None |};
    Ok (total + ShippingMethodTotals.subtotal totals))
    (CO.shipping_methods cartOrOrder) 0.

(** [getLineItemAdjustmentsTotal].  The reducer is
    [total + item.adjustments?.reduce(...) || 0], which parses as
    [(total + ...) || 0]: for an item whose [adjustments] are undefined the
    sum is [NaN] and the running total restarts from [0]. *)
Definition getLineItemAdjustmentsTotal (cartOrOrder : CartOrOrder) : Q :=
  fold_left (fun total item =>
    match LineItem.adjustments item with
    | Some adjustments => total + sumAdjustments adjustments
    | None => 0
    end) (CO.items cartOrOrder) 0.

Definition getDiscountTotal (this : TotalsService) (cartOrOrder : CartOrOrder)
  : result Q :=
  subtotal ←
    getSubtotal this cartOrOrder {| SubtotalOptions.excludeNonDiscounts := true |};
  let discountTotal := Math_round (getLineItemAdjustmentsTotal cartOrOrder) in
  if Qltb subtotal 0 then Ok (rounded (Qmax subtotal discountTotal))
  else Ok (rounded (Qmin subtotal discountTotal)).

Definition getGiftCardTotal (this : TotalsService) (cartOrOrder : CartOrOrder)
  (opts : GiftCardTotalOptions.t) : result GiftCardTotals.t :=
  giftCardable ←
    match GiftCardTotalOptions.gift_cardable opts with
    | Some g => Ok g
    | None =>
        subtotal ←
          getSubtotal this cartOrOrder {| SubtotalOptions.excludeNonDiscounts := false |};
        discountTotal ← getDiscountTotal this cartOrOrder;
        Ok (subtotal - discountTotal)
    end;
  newTotalsService_ this giftCardable (CO.region cartOrOrder)
    (default [] (CO.gift_cards cartOrOrder))
    (default [] (CO.gift_card_transactions cartOrOrder)).

Definition noGiftCardTotalOptions : GiftCardTotalOptions.t :=
  {| GiftCardTotalOptions.gift_cardable := None |}.

Definition noSubtotalOptions : SubtotalOptions.t :=
  {| SubtotalOptions.excludeNonDiscounts := false |}.

(** [cartOrOrder.items.every((i) => isDefined(i.tax_lines))] *)
Definition taxLinesJoined (order : Order.t) : bool :=
  forallb (fun i => isDefined (LineItem.tax_lines i)) (Order.items order).

(** [getTaxTotal]; the result [None] is the [null] of a cart whose region
    has no automatic taxes.  In the [flatMap] over the shipping methods of
    an order without tax rate, a method whose tax lines are not joined
    contributes no line here; in the source it contributes one [undefined]
    element, which the declared type of the strategy's parameter has no
    place for. *)
Definition getTaxTotal (this : TotalsService) (cartOrOrder : CartOrOrder)
  (forceTaxes : bool) : result (option Q) :=
  if isCart cartOrOrder && negb forceTaxes
     && negb (Region.automatic_taxes (CO.region cartOrOrder))
  then Ok None
  else
    let calculationContext := getCalculationContext cartOrOrder noContextOptions in
    giftCardTotal ← getGiftCardTotal this cartOrOrder noGiftCardTotalOptions;
    let calculate (taxLines : list TaxLine) : result (option Q) :=
      toReturn ←
        taxCalculationStrategy_ this (CO.items cartOrOrder) taxLines
          calculationContext;
      if Region.gift_cards_taxable (CO.region cartOrOrder) then
        Ok (Some (rounded (toReturn - GiftCardTotals.tax_total giftCardTotal)))
      else Ok (Some (rounded toReturn)) in
    match cartOrOrder with
    | AnOrder order =>
        if negb (taxLinesJoined order) then
          Throw (MedusaError UNEXPECTED_STATE
            "Order tax calculations must have tax lines joined on line items")
        else
          match Order.tax_rate order with
          | None =>
              let taxLines :=
                flat_map (fun li => default [] (LineItem.tax_lines li))
                  (Order.items order) in
              let shippingTaxLines :=
                flat_map (fun sm => default [] (ShippingMethod.tax_lines sm))
                  (Order.shipping_methods order) in
              calculate (taxLines ++ shippingTaxLines)
          | Some tax_rate =>
              subtotal ← getSubtotal this cartOrOrder noSubtotalOptions;
              shippingTotal ← getShippingTotal this cartOrOrder;
              discountTotal ← getDiscountTotal this cartOrOrder;
              Ok (Some (rounded
                (fmul
                   (subtotal - discountTotal - GiftCardTotals.total giftCardTotal
                    + shippingTotal)
                   (fdiv tax_rate 100))))
          end
    | ACart cart =>
        taxLines ← taxProviderService_ this (Cart.items cart) calculationContext;
        match Cart.type cart with
        | CartSwap =>
            returnTaxLines ←
              foldM (fun acc i =>
                if LineItem.is_return i then
                  match LineItem.tax_lines i with
                  | None =>
                      Throw (MedusaError UNEXPECTED_STATE
                        "Return Line Items must join tax lines")
                  | Some lines => Ok (acc ++ lines)
                  end
                else Ok acc) (Cart.items cart) [];
            calculate (taxLines ++ returnTaxLines)
        | _ => calculate taxLines
        end
    end.

(** [getTotal]; [(await getTaxTotal(...)) || 0] reads a [null] as [0]. *)
Definition getTotal (this : TotalsService) (cartOrOrder : CartOrOrder)
  (options : GetTotalsOptions.t) : result Q :=
  subtotal ← getSubtotal this cartOrOrder noSubtotalOptions;
  taxTotal ← getTaxTotal this cartOrOrder (GetTotalsOptions.force_taxes options);
  let taxTotal := default 0 taxTotal in
  discountTotal ← getDiscountTotal this cartOrOrder;
  giftCardTotal ←
    (if GetTotalsOptions.exclude_gift_cards options then Ok 0
     else
       g ← getGiftCardTotal this cartOrOrder noGiftCardTotalOptions;
       Ok (GiftCardTotals.total g));
  shippingTotal ← getShippingTotal this cartOrOrder;
  Ok (subtotal + taxTotal + shippingTotal - discountTotal - giftCardTotal).

(** [allocationMap[lineItem.id]?.discount?.unit_amount || 0] *)
Definition unitDiscount (allocationMap : LineAllocationsMap) (id : string) : Q :=
  match allocationMap !! id with
  | Some {| LineAllocation.discount := Some d |} => DiscountAllocation.unit_amount d
  | _ => 0
  end.

Definition noAllocationMapOptions : AllocationMapOptions.t :=
  {| AllocationMapOptions.exclude_gift_cards := false;
     AllocationMapOptions.exclude_discounts := false |}.

Definition getLineItemRefund (this : TotalsService) (order : Order.t)
  (lineItem : LineItem.t) : result Q :=
  let allocationMap := getAllocationMap (AnOrder order) noAllocationMapOptions in
  let includesTax := taxInclusivePricing this && LineItem.includes_tax lineItem in
  let unit_price := LineItem.unit_price lineItem in
  let quantity := LineItem.quantity lineItem in
  let discountAmount :=
    fmul (unitDiscount allocationMap (LineItem.id lineItem)) quantity in
  match Order.tax_rate order with
  | Some tax_rate =>
      let taxAmountIncludedInPrice :=
        if negb includesTax then 0
        else Math_round
               (calculatePriceTaxAmount unit_price (fdiv tax_rate 100) includesTax) in
      let lineSubtotal :=
        fsub ((unit_price - taxAmountIncludedInPrice) * quantity) discountAmount in
      let taxRate := fdiv tax_rate 100 in
      Ok (rounded (fmul lineSubtotal (fadd 1 taxRate)))
  | None =>
      match LineItem.tax_lines lineItem with
      | None =>
          Throw (MedusaError UNEXPECTED_STATE
            "Tax calculation did not receive tax_lines")
      | Some tax_lines =>
          let taxRate :=
            fold_left (fun acc next => fadd acc (fdiv (rate next) 100)) tax_lines 0 in
          let taxAmountIncludedInPrice :=
            if negb includesTax then 0
            else Math_round (calculatePriceTaxAmount unit_price taxRate includesTax) in
          let lineSubtotal :=
            fsub ((unit_price - taxAmountIncludedInPrice) * quantity) discountAmount in
          let taxTotal :=
            fold_left (fun acc next =>
              let taxRate := fdiv (rate next) 100 in
              acc + rounded (fmul lineSubtotal taxRate)) tax_lines 0 in
          Ok (fadd lineSubtotal taxTotal)
      end
  end.

(** [refunds.reduce((acc, next) => acc + next, 0)] *)
Definition sumRefunds (refunds : list Q) : Q :=
  fold_left (fun acc next => acc + next) refunds 0.

(** The ids a refund may name: the order's items, then the additional
    items of its swaps, then of its claims. *)
Definition refundableItemIds (order : Order.t) : list string :=
  let itemIds := map LineItem.id (Order.items order) in
  let itemIds :=
    fold_left (fun itemIds s => itemIds ++ map LineItem.id (Swap.additional_items s))
      (default [] (Order.swaps order)) itemIds in
  fold_left (fun itemIds c => itemIds ++ map LineItem.id (ClaimOrder.additional_items c))
    (default [] (Order.claims order)) itemIds.

Definition getRefundTotal (this : TotalsService) (order : Order.t)
  (lineItems : list LineItem.t) : result Q :=
  let itemIds := refundableItemIds order in
  refunds ←
    foldM (fun refunds item =>
      if negb (existsb (String.eqb (LineItem.id item)) itemIds) then
        Throw (MedusaError INVALID_DATA "Line item does not exist on order")
      else
        refund ← getLineItemRefund this order item;
        Ok (refunds ++ [refund])) lineItems [];
  Ok (rounded (sumRefunds refunds)).

End Service.

(** ** Sample collaborators and aggregates

    Concrete collaborators and small carts and orders, on which the
    service is evaluated in the examples further down. *)

(** A price-tax helper and a key for the flag.  No example below reaches
    the helper (no sample item includes tax) and the sample flag router
    ignores the key. *)
Definition sampleImports : Imports :=
  {| calculatePriceTaxAmount := fun price taxRate includesTax =>
       if includesTax then (taxRate * price) / (1 + taxRate) else price * taxRate;
     TaxInclusivePricingFeatureFlag_key := "tax_inclusive_pricing" |}.

(** A strategy that answers a fixed amount, a provider that answers fixed
    lines, a gift-card calculator that redeems nothing. *)
Definition constantStrategy (amount : Q)
  : list LineItem.t -> list TaxLine -> TaxCalculationContext.t -> result Q :=
  fun _ _ _ => Ok amount.

Definition constantProvider (lines : list TaxLine)
  : list LineItem.t -> TaxCalculationContext.t -> result (list TaxLine) :=
  fun _ _ => Ok lines.

Definition noGiftCards
  : Q -> Region.t -> list GiftCard.t -> list GiftCardTransaction.t ->
    result GiftCardTotals.t :=
  fun _ _ _ _ => Ok {| GiftCardTotals.total := 0; GiftCardTotals.tax_total := 0 |}.

Definition sampleService (flag : bool) (lines : list TaxLine) (amount : Q)
  : TotalsService :=
  {| taxProviderService_ := constantProvider lines;
     newTotalsService_ := noGiftCards;
     taxCalculationStrategy_ := constantStrategy amount;
     featureFlagRouter_ := fun _ => flag |}.

Definition sampleRegion : Region.t :=
  {| Region.automatic_taxes := true;
     Region.gift_cards_taxable := false;
     Region.currency_code := "usd" |}.

Definition sampleItem (id : string) (unit_price quantity : Q)
  (tax_lines : option (list TaxLine))
  (adjustments : option (list LineItemAdjustment.t)) : LineItem.t :=
  {| LineItem.id := id;
     LineItem.unit_price := unit_price;
     LineItem.quantity := quantity;
     LineItem.allow_discounts := true;
     LineItem.includes_tax := false;
     LineItem.is_return := false;
     LineItem.tax_lines := tax_lines;
     LineItem.adjustments := adjustments;
     LineItem.variant_id := Some "variant_1" |}.

Definition sampleOrder (tax_rate : option Q) (items : list LineItem.t)
  (discounts : list Discount.t) (shipping_methods : list ShippingMethod.t)
  : Order.t :=
  {| Order.tax_rate := tax_rate;
     Order.items := items;
     Order.discounts := Some discounts;
     Order.gift_cards := Some [];
     Order.gift_card_transactions := Some [];
     Order.shipping_methods := shipping_methods;
     Order.region := sampleRegion;
     Order.shipping_address := None;
     Order.customer := None;
     Order.swaps := Some [];
     Order.claims := Some [] |}.

Definition sampleCart (items : list LineItem.t) (discounts : list Discount.t)
  (shipping_methods : list ShippingMethod.t) : Cart.t :=
  {| Cart.type := CartDefault;
     Cart.items := items;
     Cart.discounts := Some discounts;
     Cart.gift_cards := Some [];
     Cart.shipping_methods := shipping_methods;
     Cart.region := sampleRegion;
     Cart.shipping_address := None;
     Cart.customer := None |}.

Definition sampleDiscount (id : string) (type : DiscountRuleType) : Discount.t :=
  {| Discount.id := id; Discount.rule := {| DiscountRule.type := type |} |}.

Definition sampleAdjustment (discount_id : option string) (amount : Q)
  : LineItemAdjustment.t :=
  {| LineItemAdjustment.discount_id := discount_id;
     LineItemAdjustment.amount := amount |}.

Definition sampleShippingMethod (id : string) (price : Q) (includes_tax : bool)
  (tax_lines : option (list TaxLine)) : ShippingMethod.t :=
  {| ShippingMethod.id := id;
     ShippingMethod.price := price;
     ShippingMethod.includes_tax := includes_tax;
     ShippingMethod.tax_lines := tax_lines |}.

(** The order of the legacy example: one item of 1000 carrying a discount
    adjustment of 100, one shipping method of 50, tax rate 25. *)
Definition legacyExampleOrder : Order.t :=
  sampleOrder (Some 25)
    [sampleItem "item_1" 1000 1 (Some [])
       (Some [sampleAdjustment (Some "disc_1") 100])]
    [sampleDiscount "disc_1" FIXED]
    [sampleShippingMethod "sm_1" 50 false (Some [])].

(** A swap-cart item standing for a returned item: negative price, tax
    lines joined. *)
Definition sampleReturnItem (id : string) (unit_price quantity : Q) : LineItem.t :=
  {| LineItem.id := id;
     LineItem.unit_price := unit_price;
     LineItem.quantity := quantity;
     LineItem.allow_discounts := true;
     LineItem.includes_tax := false;
     LineItem.is_return := true;
     LineItem.tax_lines := Some [];
     LineItem.adjustments := Some [];
     LineItem.variant_id := Some "variant_1" |}.

(** ** Vocabulary of the properties *)

(** The rounding the specification describes: half away from zero. *)
Definition roundHalfAwayFromZero (value : Q) : Q :=
  if Qltb value 0 then - inject_Z (Qfloor (- value + (1 # 2)))
  else inject_Z (Qfloor (value + (1 # 2))).

(** A collaborator that answers every call. *)
Definition providerReturns (this : TotalsService) : Prop :=
  forall items context, exists lines, taxProviderService_ this items context = Ok lines.

Definition strategyReturns (this : TotalsService) : Prop :=
  forall items lines context,
    exists amount, taxCalculationStrategy_ this items lines context = Ok amount.

(** No line item and no shipping method of the order carries tax lines. *)
Definition carriesNoTaxLines (order : Order.t) : Prop :=
  (forall i, List.In i (Order.items order) ->
     default [] (LineItem.tax_lines i) = []) /\
  (forall sm, List.In sm (Order.shipping_methods order) ->
     default [] (ShippingMethod.tax_lines sm) = []).

(** The aggregate carries a discount whose rule is FREE_SHIPPING. *)
Definition carriesFreeShipping (x : CartOrOrder) : Prop :=
  exists ds d,
    CO.discounts x = Some ds /\ List.In d ds /\
    DiscountRule.type (Discount.rule d) = FREE_SHIPPING.

(** The line items a refund may name: the order's own, the additional
    items of its swaps and the additional items of its claims. *)
Definition orderItemPool (order : Order.t) : list LineItem.t :=
  Order.items order
  ++ flat_map Swap.additional_items (default [] (Order.swaps order))
  ++ flat_map ClaimOrder.additional_items (default [] (Order.claims order)).

Definition onOrder (order : Order.t) (item : LineItem.t) : Prop :=
  exists i, List.In i (orderItemPool order) /\ LineItem.id i = LineItem.id item.

(** The discount of an aggregate that allocates amounts to its lines: the
    first one that is not FREE_SHIPPING. *)
Definition allocatingDiscount (x : CartOrOrder) : option Discount.t :=
  match CO.discounts x with
  | Some ds => List.find (fun d => negb (is_free_shipping d)) ds
  | None => None
  end.

(** The amount the specification allocates to an item: the sum of its
    adjustments matching the allocating discount ([0] when the item does
    not allow discounts) plus the sum of its adjustments without discount. *)
Definition allocatedAmount (x : CartOrOrder) (item : LineItem.t) : Q :=
  let adjustments := default [] (LineItem.adjustments item) in
  (if LineItem.allow_discounts item then
     match allocatingDiscount x with
     | Some d =>
         sumAdjustments (List.filter (discount_id_is (Some (Discount.id d))) adjustments)
     | None => 0
     end
   else 0)
  + sumAdjustments (List.filter (discount_id_is None) adjustments).

(** An order that lists one line item twice: among its own items and
    among the additional items of a swap.  The item has quantity 2 and one
    adjustment of 1 without discount. *)
Definition twiceListedItem : LineItem.t :=
  sampleItem "item_1" 10 2 (Some []) (Some [sampleAdjustment None 1]).

Definition twiceListedOrder : Order.t :=
  {| Order.tax_rate := None;
     Order.items := [twiceListedItem];
     Order.discounts := Some [];
     Order.gift_cards := Some [];
     Order.gift_card_transactions := Some [];
     Order.shipping_methods := [];
     Order.region := sampleRegion;
     Order.shipping_address := None;
     Order.customer := None;
     Order.swaps := Some [{| Swap.additional_items := [twiceListedItem] |}];
     Order.claims := Some [] |}.

(** The legacy example order with the tax lines of its item not joined. *)
Definition unjoinedLegacyOrder : Order.t :=
  sampleOrder (Some 25)
    [sampleItem "item_1" 1000 1 None
       (Some [sampleAdjustment (Some "disc_1") 100])]
    [sampleDiscount "disc_1" FIXED]
    [sampleShippingMethod "sm_1" 50 false (Some [])].

(** An order of the new tax system whose item has no tax lines joined. *)
Definition unjoinedOrder : Order.t :=
  sampleOrder None [sampleItem "item_1" 1000 1 None (Some [])] [] [].

(** A swap cart: a returned item worth 500 against a new item of 300 that
    carries a discount adjustment of 250. *)
Definition swapCart : Cart.t :=
  {| Cart.type := CartSwap;
     Cart.items :=
       [sampleReturnItem "return_1" (- 500) 1;
        sampleItem "item_1" 300 1 (Some [])
          (Some [sampleAdjustment (Some "disc_1") 250])];
     Cart.discounts := Some [sampleDiscount "disc_1" FIXED];
     Cart.gift_cards := Some [];
     Cart.shipping_methods := [];
     Cart.region := sampleRegion;
     Cart.shipping_address := None;
     Cart.customer := None |}.

(** A shipping method of 50 without tax lines, on an order of the new tax
    system and on a cart that both carry a FREE_SHIPPING discount. *)
Definition plainShippingMethod : ShippingMethod.t :=
  sampleShippingMethod "sm_1" 50 false (Some []).

Definition freeShippingOrder : Order.t :=
  sampleOrder None [] [sampleDiscount "disc_free" FREE_SHIPPING] [plainShippingMethod].

Definition freeShippingCart : Cart.t :=
  sampleCart [] [sampleDiscount "disc_free" FREE_SHIPPING] [plainShippingMethod].

Definition withTax : GetShippingMethodTotalsOptions.t :=
  {| GetShippingMethodTotalsOptions.include_tax := true;
     GetShippingMethodTotalsOptions.use_tax_lines := false;
     GetShippingMethodTotalsOptions.calculation_context := None |}.

(** A legacy order (tax rate 25) without items whose shipping method of
    100 includes tax and carries a tax line. *)
Definition taxInclusiveShippingOrder : Order.t :=
  sampleOrder (Some 25) [] []
    [sampleShippingMethod "sm_1" 100 true (Some [ShippingMethodTaxLine 10 "sm_1"])].

(** An order of the new tax system with one item of 10 taxed at 25%, and
    an item that is not on it. *)
Definition quarterTaxedItem : LineItem.t :=
  sampleItem "item_1" 10 1 (Some [LineItemTaxLine 25 "item_1"]) (Some []).

Definition quarterTaxedOrder : Order.t :=
  sampleOrder None [quarterTaxedItem] [] [].

Definition foreignItem : LineItem.t :=
  sampleItem "item_9" 10 1 (Some []) (Some []).

(** The refund example of the specification: three units of 500 on a
    legacy order with tax rate 20. *)
Definition refundExampleItem : LineItem.t :=
  sampleItem "item_1" 500 3 (Some []) (Some []).

Definition refundExampleOrder : Order.t :=
  sampleOrder (Some 20) [refundExampleItem] [] [].

Definition defaultTotalsOptions : GetTotalsOptions.t :=
  {| GetTotalsOptions.exclude_gift_cards := false;
     GetTotalsOptions.force_taxes := false |}.

(** The service most examples use: tax-inclusive pricing disabled, a
    provider without tax lines, a strategy that answers 0. *)
Definition plainService : TotalsService := sampleService false [] 0.

Definition noGiftCardTotals : GiftCardTotals.t :=
  {| GiftCardTotals.total := 0; GiftCardTotals.tax_total := 0 |}.

(** ** Further methods of the service *)

Module LineDiscount.
Record t : Type := { lineItem : LineItem.t; variant : string; amount : Q }.
End LineDiscount.

Module GetLineItemTotalOptions.
Record t : Type := { include_tax : bool; exclude_discounts : bool }.
End GetLineItemTotalOptions.

Section FurtherMethods.
Context `{Imports}.

(** [calculateDiscount_]: the discount of a line for a percentage or for a
    fixed value; every type but PERCENTAGE takes the fixed branch. *)
Definition calculateDiscount_ (lineItem : LineItem.t) (variant : string)
  (variantPrice value : Q) (discountType : DiscountRuleType) : LineDiscount.t :=
  if negb (LineItem.allow_discounts lineItem) then
    {| LineDiscount.lineItem := lineItem;
       LineDiscount.variant := variant;
       LineDiscount.amount := 0 |}
  else if DiscountRuleType_eqb discountType PERCENTAGE then
    {| LineDiscount.lineItem := lineItem;
       LineDiscount.variant := variant;
       LineDiscount.amount :=
         fmul (fdiv (variantPrice * LineItem.quantity lineItem) 100) value |}
  else
    {| LineDiscount.lineItem := lineItem;
       LineDiscount.variant := variant;
       LineDiscount.amount :=
         if Qle_bool (variantPrice * LineItem.quantity lineItem) value
         then variantPrice * LineItem.quantity lineItem
         else value * LineItem.quantity lineItem |}.

(** [getLineItemDiscountAdjustment]: the amount of the first adjustment of
    the item made for the discount, [0] without one. *)
Definition getLineItemDiscountAdjustment (lineItem : LineItem.t)
  (discount : Discount.t) : Q :=
  let matchingDiscount :=
    match LineItem.adjustments lineItem with
    | Some adjustments =>
        List.find (discount_id_is (Some (Discount.id discount))) adjustments
    | None => None
    end in
  match matchingDiscount with
  | None => 0
  | Some adjustment => LineItemAdjustment.amount adjustment
  end.

(** [getLineItemTotal]: the subtotal of the breakdown, to which the
    discount total (unless excluded) and the tax total (if included) are
    added. *)
Definition getLineItemTotal (this : TotalsService) (lineItem : LineItem.t)
  (cartOrOrder : CartOrOrder) (options : GetLineItemTotalOptions.t) : result Q :=
  lineItemTotals ←
    getLineItemTotals this lineItem cartOrOrder
      {| LineItemTotalsOptions.include_tax :=
           GetLineItemTotalOptions.include_tax options;
         LineItemTotalsOptions.use_tax_lines := false;
         LineItemTotalsOptions.exclude_gift_cards := false;
         LineItemTotalsOptions.calculation_context := None |};
  let toReturn := LineItemTotals.subtotal lineItemTotals in
  let toReturn :=
    if negb (GetLineItemTotalOptions.exclude_discounts options)
    then toReturn + LineItemTotals.discount_total lineItemTotals
    else toReturn in
  let toReturn :=
    if GetLineItemTotalOptions.include_tax options
    then toReturn + LineItemTotals.tax_total lineItemTotals
    else toReturn in
  Ok toReturn.

(** [getGiftCardableAmount] *)
Definition getGiftCardableAmount (this : TotalsService) (cartOrOrder : CartOrOrder)
  : result Q :=
  if Region.gift_cards_taxable (CO.region cartOrOrder) then
    subtotal ← getSubtotal this cartOrOrder noSubtotalOptions;
    discountTotal ← getDiscountTotal this cartOrOrder;
    Ok (subtotal - discountTotal)
  else
    getTotal this cartOrOrder
      {| GetTotalsOptions.exclude_gift_cards := true;
         GetTotalsOptions.force_taxes := false |}.

End FurtherMethods.

(** ** Vocabulary of the further properties *)

(** A number that is an integer. *)
Definition isInteger (q : Q) : Prop := exists z : Z, q = inject_Z z.

(** The ids of the lines of an aggregate, in the order of the merge. *)
Definition mergedIds (x : CartOrOrder) : list string :=
  map LineItem.id (mergedItems x).

(** The sum of all adjustment amounts of a list of items. *)
Definition adjustmentsSum (items : list LineItem.t) : Q :=
  fold_right (fun item acc =>
    sumAdjustments (default [] (LineItem.adjustments item)) + acc) 0 items.

(** The unit amount the allocation map stores for a line allocated
    [amount]: rounded for an id met for the first time, not rounded for an
    id that was listed before. *)
Definition storedUnitAmount (listedBefore : bool) (amount quantity : Q) : Q :=
  if listedBefore then fdiv amount quantity else Math_round (amount / quantity).

(** No line of the aggregate has quantity 0: every quotient by a quantity
    that [getAllocationMap] takes is a number. *)
Definition quantitiesNonZero (x : CartOrOrder) : Prop :=
  Forall (fun item => ~ LineItem.quantity item == 0) (mergedItems x).

(** The names every JavaScript object inherits from [Object.prototype]:
    [allocationMap[id]] is not [undefined] for them on the empty object. *)
Definition objectPrototypeKeys : list string :=
  ["constructor"; "__proto__"; "hasOwnProperty"; "isPrototypeOf";
   "propertyIsEnumerable"; "toLocaleString"; "toString"; "valueOf";
   "__defineGetter__"; "__defineSetter__"; "__lookupGetter__";
   "__lookupSetter__"].

(** Whatever the provider answers, it holds no tax line of the shipping
    method. *)
Definition providerHasNoLinesFor (this : TotalsService)
  (shippingMethod : ShippingMethod.t) : Prop :=
  forall items context lines,
    taxProviderService_ this items context = Ok lines ->
    forall r, ~ List.In (ShippingMethodTaxLine r (ShippingMethod.id shippingMethod)) lines.

(** The sum of [unit_price * quantity] over a list of items. *)
Definition priceSum (items : list LineItem.t) : Q :=
  fold_right (fun item acc =>
    LineItem.unit_price item * LineItem.quantity item + acc) 0 items.

(** The options [getSubtotal] passes to [getLineItemTotals]. *)
Definition subtotalLineOptions : LineItemTotalsOptions.t :=
  {| LineItemTotalsOptions.include_tax := true;
     LineItemTotalsOptions.use_tax_lines := false;
     LineItemTotalsOptions.exclude_gift_cards := true;
     LineItemTotalsOptions.calculation_context := None |}.

(** The sum of the prices of a list of shipping methods. *)
Definition shippingPriceSum (methods : list ShippingMethod.t) : Q :=
  fold_right (fun sm acc => ShippingMethod.price sm + acc) 0 methods.

(** ** Further sample aggregates *)

(** A cart whose second item has its adjustments not loaded, between an
    item adjusted by 100 and an item adjusted by 30. *)
Definition restartCart : Cart.t :=
  sampleCart
    [sampleItem "item_1" 1000 1 (Some []) (Some [sampleAdjustment (Some "disc_1") 100]);
     sampleItem "item_2" 500 1 (Some []) None;
     sampleItem "item_3" 300 1 (Some []) (Some [sampleAdjustment (Some "disc_1") 30])]
    [sampleDiscount "disc_1" FIXED] [].

(** An order with three units of an item that share a discount of 100. *)
Definition thirdsItem : LineItem.t :=
  sampleItem "item_1" 500 3 (Some []) (Some [sampleAdjustment (Some "disc_1") 100]).

Definition thirdsOrder : Order.t :=
  sampleOrder (Some 20) [thirdsItem] [sampleDiscount "disc_1" FIXED] [].

(** A legacy order (tax rate 20) with two items. *)
Definition secondRefundItem : LineItem.t :=
  sampleItem "item_2" 200 1 (Some []) (Some []).

Definition twoItemOrder : Order.t :=
  sampleOrder (Some 20) [refundExampleItem; secondRefundItem] [] [].

(** The item of the legacy example order. *)
Definition legacyExampleItem : LineItem.t :=
  sampleItem "item_1" 1000 1 (Some [])
    (Some [sampleAdjustment (Some "disc_1") 100]).

(** A service whose provider has a tax line for the plain shipping method
    and whose strategy answers 5. *)
Definition taxingService : TotalsService :=
  sampleService false [ShippingMethodTaxLine 10 "sm_1"] 5.

(** An order of the new tax system whose item of 1000 carries a discount
    adjustment of 100 and no tax line. *)
Definition discountedOrder : Order.t :=
  sampleOrder None [legacyExampleItem] [sampleDiscount "disc_1" FIXED] [].

Definition lineTotalOptions : LineItemTotalsOptions.t :=
  {| LineItemTotalsOptions.include_tax := true;
     LineItemTotalsOptions.use_tax_lines := false;
     LineItemTotalsOptions.exclude_gift_cards := false;
     LineItemTotalsOptions.calculation_context := None |}.

(** A legacy order whose flat-rate tax is not a double: one item of 50 at
    the tax rate 29. *)
Definition oddRateOrder : Order.t :=
  sampleOrder (Some 29) [sampleItem "item_1" 50 1 (Some []) (Some [])] [] [].

(** An item of 50 with one tax line of 29%, on an order without tax rate. *)
Definition oddRateItem : LineItem.t :=
  sampleItem "item_1" 50 1 (Some [LineItemTaxLine 29 "item_1"]) (Some []).

Definition oddRateLinesOrder : Order.t :=
  sampleOrder None [oddRateItem] [] [].

(** An item of 50 on a legacy order with the tax rate 13. *)
Definition thirteenItem : LineItem.t :=
  sampleItem "item_1" 50 1 (Some []) (Some []).

Definition thirteenOrder : Order.t :=
  sampleOrder (Some 13) [thirteenItem] [] [].

(** * Properties *)

(** ** Rounding *)

Lemma Qltb_lt (a b : Q) : Qltb a b = true <-> a < b.
Proof.
  unfold Qltb. rewrite negb_true_iff, <- not_true_iff_false, Qle_bool_iff.
  split; [apply Qnot_le_lt | apply Qlt_not_le].
Qed.

Lemma Qltb_ge (a b : Q) : Qltb a b = false <-> b <= a.
Proof.
  unfold Qltb. rewrite negb_false_iff. apply Qle_bool_iff.
Qed.

Lemma Math_round_lower (v : Q) : Math_round v - (1 # 2) <= v.
Proof.
  unfold Math_round. pose proof (Qfloor_le (v + (1 # 2))). lra.
Qed.

Lemma Math_round_upper (v : Q) : v < Math_round v + (1 # 2).
Proof.
  unfold Math_round. pose proof (Qlt_floor (v + (1 # 2))) as Hlt.
  rewrite inject_Z_plus in Hlt. change (inject_Z 1) with 1 in Hlt. lra.
Qed.

Lemma Math_round_comp (v w : Q) : v == w -> Math_round v = Math_round w.
Proof.
  intros Heq. unfold Math_round. f_equal. apply Qfloor_comp. now rewrite Heq.
Qed.

Lemma Math_round_inject_Z (z : Z) : Math_round (inject_Z z) = inject_Z z.
Proof.
  unfold Math_round. f_equal.
  apply Z.le_antisymm.
  - assert (Hlt : inject_Z (Qfloor (inject_Z z + (1 # 2))) < inject_Z (z + 1)).
    { pose proof (Qfloor_le (inject_Z z + (1 # 2))).
      rewrite inject_Z_plus. change (inject_Z 1) with 1. lra. }
    rewrite <- Zlt_Qlt in Hlt. lia.
  - rewrite <- (Qfloor_Z z) at 1. apply Qfloor_resp_le. lra.
Qed.

Lemma rounded_idempotent (v : Q) : rounded (rounded v) = rounded v.
Proof. unfold rounded at 1 3. unfold Math_round at 2. apply Math_round_inject_Z. Qed.

(** ** Double-precision arithmetic *)

(** [fl] does not depend on the representation of its argument. *)
Lemma fl_comp (x y : Q) : x == y -> fl x = fl y.
Proof. intros Heq. unfold fl. now rewrite (Qred_complete x y Heq). Qed.

Lemma binade_lower (x : Q) : 0 < x -> 2 ^ binade x <= x.
Proof.
  intros Hpos. unfold binade.
  set (a := Z.log2 (Qnum x)). set (b := Z.log2 (Z.pos (Qden x))).
  destruct (Qle_bool (2 ^ (a - b)) x) eqn:Htest; [now apply Qle_bool_iff |].
  assert (Hn : (0 < Qnum x)%Z).
  { destruct x as [n d]. unfold Qlt in Hpos. cbn in *. lia. }
  destruct (Z.log2_spec (Qnum x) Hn) as [Ha _]. fold a in Ha.
  destruct (Z.log2_spec (Z.pos (Qden x)) (Pos2Z.is_pos _)) as [_ Hb]. fold b in Hb.
  assert (Ha0 : (0 <= a)%Z) by apply Z.log2_nonneg.
  assert (Hb0 : (0 <= b)%Z) by apply Z.log2_nonneg.
  replace (a - b - 1)%Z with (a - (b + 1))%Z by lia.
  rewrite Qpower_minus by discriminate.
  change 2 with (inject_Z 2).
  rewrite <- !Zpower_Qpower by lia.
  set (A := (2 ^ a)%Z) in *. set (B := (2 ^ Z.succ b)%Z) in *.
  replace (b + 1)%Z with (Z.succ b) by lia. fold B.
  assert (HB : (0 < B)%Z) by lia.
  apply Qle_shift_div_r; [rewrite <- (Zlt_Qlt 0); exact HB |].
  destruct x as [n d]. cbn in *.
  unfold Qle, Qmult, inject_Z. cbn. nia.
Qed.

Lemma roundHalfEven_error (y : Q) :
  Qabs (inject_Z (roundHalfEven y) - y) <= 1 # 2.
Proof.
  unfold roundHalfEven.
  pose proof (Qfloor_le y) as Hl. pose proof (Qlt_floor y) as Hu.
  rewrite inject_Z_plus in Hu. change (inject_Z 1) with 1 in Hu.
  destruct (Qcompare (y - inject_Z (Qfloor y)) (1 # 2)) eqn:Hcmp.
  - apply Qeq_alt in Hcmp.
    destruct (Z.even (Qfloor y)); [| rewrite inject_Z_plus; change (inject_Z 1) with 1];
      apply Qabs_case; intros; lra.
  - apply Qlt_alt in Hcmp. apply Qabs_case; intros; lra.
  - apply Qgt_alt in Hcmp. rewrite inject_Z_plus. change (inject_Z 1) with 1.
    apply Qabs_case; intros; lra.
Qed.

Lemma fl_pos_error (x : Q) :
  0 < x -> Qabs (fl_pos x - x) <= x * unitRoundoff.
Proof.
  intros Hpos. unfold fl_pos.
  set (ulp := 2 ^ (binade x - 52)).
  assert (Hulp : 0 < ulp) by (apply Qpower_0_lt; reflexivity).
  assert (Hbound : ulp <= x * (1 # 4503599627370496)).
  { unfold ulp. rewrite Qpower_minus by discriminate.
    pose proof (binade_lower x Hpos) as Hb.
    assert (Hc : 2 ^ 52 == 4503599627370496) by reflexivity.
    rewrite Hc. unfold Qdiv.
    assert (Hi : / 4503599627370496 == 1 # 4503599627370496) by reflexivity.
    rewrite Hi. apply Qmult_le_compat_r; [exact Hb | discriminate]. }
  pose proof (roundHalfEven_error (x / ulp)) as Herr.
  set (m := inject_Z (roundHalfEven (x / ulp))) in *.
  assert (Heq : m * ulp - x == (m - x / ulp) * ulp) by (field; lra).
  rewrite Heq, Qabs_Qmult, (Qabs_pos ulp) by lra.
  apply Qle_trans with ((1 # 2) * ulp).
  - apply Qmult_le_compat_r; [exact Herr | lra].
  - unfold unitRoundoff.
    assert (Hu : 1 # 9007199254740992 == (1 # 2) * (1 # 4503599627370496)) by reflexivity.
    rewrite Hu. lra.
Qed.

Lemma fl_error (x : Q) :
  0 <= x -> x * (1 - unitRoundoff) <= fl x /\ fl x <= x * (1 + unitRoundoff).
Proof.
  intros Hx. unfold fl.
  pose proof (Qred_correct x) as Hred.
  destruct (Qnum (Qred x)) eqn:Hnum.
  - assert (Hz : x == 0).
    { rewrite <- Hred. destruct (Qred x) as [n d]. cbn in Hnum. subst n. reflexivity. }
    rewrite Hz. split; vm_compute; discriminate.
  - assert (Hpos : 0 < Qred x).
    { destruct (Qred x) as [n d]. cbn in Hnum. subst n. reflexivity. }
    pose proof (fl_pos_error (Qred x) Hpos) as Herr.
    rewrite Qred_correct. rewrite Hred in Herr at 2 3.
    revert Herr. apply Qabs_case; intros; lra.
  - exfalso. assert (Hneg : Qred x < 0).
    { destruct (Qred x) as [n d]. cbn in Hnum. subst n. reflexivity. }
    lra.
Qed.

Lemma Qfloor_unique (x : Q) (k : Z) :
  inject_Z k <= x -> x < inject_Z k + 1 -> Qfloor x = k.
Proof.
  intros Hle Hlt.
  pose proof (Qfloor_le x) as Hfl. pose proof (Qlt_floor x) as Hfu.
  rewrite inject_Z_plus in Hfu. change (inject_Z 1) with 1 in Hfu.
  assert (H1 : inject_Z (Qfloor x) < inject_Z (k + 1)).
  { rewrite inject_Z_plus. change (inject_Z 1) with 1. lra. }
  assert (H2 : inject_Z k < inject_Z (Qfloor x + 1)).
  { rewrite inject_Z_plus. change (inject_Z 1) with 1. lra. }
  rewrite <- Zlt_Qlt in H1, H2. lia.
Qed.

(** C3 (as amended).  [rounded] returns the integer nearest to its input, a
    tie going to the integer above: the result [z] satisfies
    [z - 1/2 <= value < z + 1/2].  It is the rounding half away from zero
    on every input that is non-negative or not half-way between two
    integers; [rounded(2.5) = 3] and [rounded(-2.5) = -2]. *)
Theorem rounded_nearest_ties_up (value : Q) :
  (exists z : Z, rounded value = inject_Z z) /\
  (rounded value - (1 # 2) <= value /\ value < rounded value + (1 # 2)) /\
  (0 <= value \/ ~ (exists z : Z, value == inject_Z z - (1 # 2)) ->
   rounded value = roundHalfAwayFromZero value) /\
  rounded (5 # 2) = 3 /\ rounded (- 5 # 2) = - 2.
Proof.
  split; [| split; [| split; [| split]]].
  - now exists (Qfloor (value + (1 # 2))).
  - split; [apply Math_round_lower | apply Math_round_upper].
  - intros Hside. unfold roundHalfAwayFromZero.
    destruct (Qltb value 0) eqn:Hneg; [| reflexivity].
    apply Qltb_lt in Hneg.
    destruct Hside as [Hpos | Hnotie]; [lra |].
    unfold rounded, Math_round.
    pose proof (Math_round_lower value) as Hl.
    pose proof (Math_round_upper value) as Hu.
    unfold Math_round in Hl, Hu.
    set (z := Qfloor (value + (1 # 2))) in *.
    assert (Hstrict : inject_Z z - (1 # 2) < value).
    { destruct (Qlt_le_dec (inject_Z z - (1 # 2)) value) as [Hlt | Hge]; [exact Hlt |].
      exfalso. apply Hnotie. exists z. lra. }
    rewrite (Qfloor_unique (- value + (1 # 2)) (- z)).
    + rewrite inject_Z_opp. unfold Qopp. simpl. now rewrite Z.opp_involutive.
    + rewrite inject_Z_opp. lra.
    + rewrite inject_Z_opp. lra.
  - reflexivity.
  - reflexivity.
Qed.

(** C3, the claim as stated fails: [rounded(-2.5)] is [-2], where rounding
    half away from zero gives [-3]. *)
Lemma rounded_not_half_away_from_zero :
  rounded (- 5 # 2) = - 2 /\
  roundHalfAwayFromZero (- 5 # 2) = - 3 /\
  ~ rounded (- 5 # 2) == - 3.
Proof.
  split; [reflexivity | split; [reflexivity |]].
  intros Heq. vm_compute in Heq. discriminate Heq.
Qed.

(** ** The result monad *)

Lemma bind_Ok {A B : Type} (m : result A) (k : A -> result B) (b : B) :
  m ≫= k = Ok b <-> exists a, m = Ok a /\ k a = Ok b.
Proof.
  destruct m as [a | e]; simpl.
  - split; [intros Hk; now exists a | intros (a' & Ha & Hk); now inversion Ha].
  - split; [discriminate | intros (a' & Ha & _); discriminate].
Qed.

Lemma bind_Throw {A B : Type} (m : result A) (k : A -> result B) (e : error) :
  m = Throw e -> m ≫= k = Throw e.
Proof. now intros ->. Qed.

Ltac inv_Ok :=
  repeat match goal with
  | H : Ok _ = Ok _ |- _ => inversion H; subst; clear H
  | H : _ ≫= _ = Ok _ |- _ =>
      apply bind_Ok in H; destruct H as (? & ? & H)
  end.

(** ** Total decomposition *)

(** C1.  [getTotal(x, o)] returns [v] exactly when its five components
    return and [v] is [subtotal + t + shippingTotal - discountTotal - g],
    where [t] is the tax total with [null] read as [0] and [g] is [0] under
    [exclude_gift_cards] and the gift-card total otherwise. *)
Theorem getTotal_decomposition `{Imports} (this : TotalsService)
  (x : CartOrOrder) (o : GetTotalsOptions.t) (v : Q) :
  getTotal this x o = Ok v <->
  exists (s : Q) (t : option Q) (d g sh : Q),
    getSubtotal this x noSubtotalOptions = Ok s /\
    getTaxTotal this x (GetTotalsOptions.force_taxes o) = Ok t /\
    getDiscountTotal this x = Ok d /\
    (if GetTotalsOptions.exclude_gift_cards o then g = 0
     else exists gc, getGiftCardTotal this x noGiftCardTotalOptions = Ok gc /\
                     g = GiftCardTotals.total gc) /\
    getShippingTotal this x = Ok sh /\
    v = s + default 0 t + sh - d - g.
Proof.
  unfold getTotal. split.
  - intros Hv. inv_Ok.
    match goal with
    | Hs : getSubtotal _ _ _ = Ok ?s, Ht : getTaxTotal _ _ _ = Ok ?t,
      Hd : getDiscountTotal _ _ = Ok ?d, Hsh : getShippingTotal _ _ = Ok ?sh,
      Hg : _ = Ok ?g |- _ =>
        exists s, t, d, g, sh; repeat split; try assumption
    end.
    destruct (GetTotalsOptions.exclude_gift_cards o).
    + now inv_Ok.
    + inv_Ok. eexists; split; [eassumption | reflexivity].
  - intros (s & t & d & g & sh & Hs & Ht & Hd & Hg & Hsh & ->).
    rewrite Hs, Ht, Hd. simpl.
    destruct (GetTotalsOptions.exclude_gift_cards o).
    + subst g. simpl. now rewrite Hsh.
    + destruct Hg as (gc & Hgc & ->). rewrite Hgc. simpl. now rewrite Hsh.
Qed.

(** ** Discount clamp *)

Lemma getSubtotal_integer `{Imports} (this : TotalsService) (x : CartOrOrder)
  (opts : SubtotalOptions.t) (s : Q) :
  getSubtotal this x opts = Ok s -> exists z : Z, s = inject_Z z.
Proof.
  unfold getSubtotal. intros Hs. inv_Ok. eexists. reflexivity.
Qed.

Lemma rounded_Qmin_integers (a b : Z) :
  rounded (Qmin (inject_Z a) (inject_Z b)) = Qmin (inject_Z a) (inject_Z b).
Proof.
  unfold Qmin, GenericMinMax.gmin.
  destruct (inject_Z a ?= inject_Z b); apply Math_round_inject_Z.
Qed.

Lemma rounded_Qmax_integers (a b : Z) :
  rounded (Qmax (inject_Z a) (inject_Z b)) = Qmax (inject_Z a) (inject_Z b).
Proof.
  unfold Qmax, GenericMinMax.gmax.
  destruct (inject_Z a ?= inject_Z b); apply Math_round_inject_Z.
Qed.

(** C4 (as amended).  With [s] the discountable subtotal and [D] the
    rounded sum of the line-item adjustments, [getDiscountTotal] returns
    [min(s, D)] when [s >= 0] and [max(s, D)] when [s < 0]: it is clamped
    by [s] on one side only.  Whenever [D] is zero or has the sign of [s]
    ([D >= 0] if [s >= 0], [D <= 0] if [s < 0]) its magnitude is at most
    [|s|] and it is zero or has the sign of [s]. *)
Theorem getDiscountTotal_clamp `{Imports} (this : TotalsService)
  (x : CartOrOrder) (s : Q) :
  getSubtotal this x {| SubtotalOptions.excludeNonDiscounts := true |} = Ok s ->
  exists d : Q,
    getDiscountTotal this x = Ok d /\
    let D := Math_round (getLineItemAdjustmentsTotal x) in
    (0 <= s -> d = Qmin s D /\ d <= s) /\
    (s < 0 -> d = Qmax s D /\ s <= d) /\
    ((0 <= s -> 0 <= D) -> (s < 0 -> D <= 0) ->
     Qabs d <= Qabs s /\ (d == 0 \/ (0 < d /\ 0 < s) \/ (d < 0 /\ s < 0))).
Proof.
  intros Hs. destruct (getSubtotal_integer _ _ _ _ Hs) as [zs Hzs].
  set (D := Math_round (getLineItemAdjustmentsTotal x)).
  assert (Hd : getDiscountTotal this x =
               Ok (if Qltb s 0 then rounded (Qmax s D) else rounded (Qmin s D))).
  { unfold getDiscountTotal. rewrite Hs. simpl. now destruct (Qltb s 0). }
  assert (Hmax : rounded (Qmax s D) = Qmax s D)
    by (rewrite Hzs; apply rounded_Qmax_integers).
  assert (Hmin : rounded (Qmin s D) = Qmin s D)
    by (rewrite Hzs; apply rounded_Qmin_integers).
  rewrite Hmax, Hmin in Hd. clear Hmax Hmin Hzs Hs. clearbody D.
  eexists. split; [exact Hd |]. clear Hd. cbv zeta.
  destruct (Qltb s 0) eqn:Hneg.
  - apply Qltb_lt in Hneg.
    pose proof (Q.le_max_l s D) as Hl.
    pose proof (Q.max_spec s D) as Hspec.
    split; [intros Hpos; exfalso; lra |]. split; [now intros _ |].
    intros _ HsignD. specialize (HsignD Hneg).
    destruct Hspec as [[Hlt Hmax] | [Hle Hmax]].
    + split.
      * rewrite Hmax. rewrite !Qabs_neg by lra. lra.
      * destruct (Qeq_dec D 0) as [Hz | Hnz]; [left; lra | right; right; lra].
    + split.
      * rewrite Hmax. apply Qle_refl.
      * right; right; lra.
  - apply Qltb_ge in Hneg.
    pose proof (Q.le_min_l s D) as Hl.
    pose proof (Q.min_spec s D) as Hspec.
    split; [now intros _ |]. split; [intros Hlt; exfalso; lra |].
    intros HsignD _. specialize (HsignD Hneg).
    destruct Hspec as [[Hlt Hmin] | [Hle Hmin]].
    + split.
      * rewrite Hmin. apply Qle_refl.
      * destruct (Qeq_dec s 0) as [Hz | Hnz];
          [left; lra | right; left; lra].
    + split.
      * rewrite Hmin. rewrite !Qabs_pos by lra. lra.
      * destruct (Qeq_dec D 0) as [Hz | Hnz]; [left; lra | right; left; lra].
Qed.

(** ** Free-shipping override *)

Lemma carriesFreeShipping_hasFreeShipping (x : CartOrOrder) :
  carriesFreeShipping x -> hasFreeShipping x = true.
Proof.
  intros (ds & d & Hds & Hin & Htype). unfold hasFreeShipping. rewrite Hds.
  apply existsb_exists. exists d. split; [exact Hin |].
  unfold is_free_shipping. now rewrite Htype.
Qed.

Lemma shippingMethodTax_returns `{Imports} (this : TotalsService)
  (shippingMethod : ShippingMethod.t) (context : TaxCalculationContext.t)
  (totals : ShippingMethodTotals.t) :
  strategyReturns this ->
  exists r, shippingMethodTax this shippingMethod context totals = Ok r.
Proof.
  intros Hstrat. unfold shippingMethodTax.
  destruct (0 <? length (ShippingMethodTotals.tax_lines totals))%nat;
    [| eexists; reflexivity].
  destruct (Hstrat [] (ShippingMethodTotals.tax_lines totals) context)
    as [amount ->].
  simpl.
  destruct (taxInclusivePricing this && ShippingMethod.includes_tax shippingMethod);
    eexists; reflexivity.
Qed.

(** The provider's answer, filtered for the method, is empty when it
    holds no tax line of the method. *)
Lemma filter_no_lines_for (id : string) (lines : list TaxLine) :
  (forall r, ~ List.In (ShippingMethodTaxLine r id) lines) ->
  List.filter (fun ol =>
    match ol with
    | ShippingMethodTaxLine _ shipping_method_id => String.eqb shipping_method_id id
    | LineItemTaxLine _ _ => false
    end) lines = [].
Proof.
  intros Hnone. induction lines as [| l lines IH]; [reflexivity |].
  cbn [List.filter]. destruct l as [r item_id | r method_id].
  - apply IH. intros r' Hin. apply (Hnone r'). now right.
  - destruct (String.eqb method_id id) eqn:Heq.
    + apply String.eqb_eq in Heq. subst method_id.
      exfalso. apply (Hnone r). now left.
    + apply IH. intros r' Hin. apply (Hnone r'). now right.
Qed.

(** C5 (as amended).  For an aggregate that carries a FREE_SHIPPING
    discount, every breakdown [getShippingMethodTotals] returns has
    [total = subtotal = tax_total = 0].  It returns one, provided the tax
    collaborators answer, for every cart, for every call without
    [include_tax], for every order with a tax rate and for every method
    that has tax lines.  In the remaining case, an order without tax rate
    called with [include_tax] on a method without tax lines, it fails
    whenever the provider has no tax line of the method either: with the
    UnexpectedState error "Tax Lines must be joined on shipping method to
    calculate taxes" when the provider answers, before the override is
    reached. *)
Theorem getShippingMethodTotals_free_shipping `{Imports} (this : TotalsService)
  (shippingMethod : ShippingMethod.t) (x : CartOrOrder)
  (opts : GetShippingMethodTotalsOptions.t) :
  carriesFreeShipping x ->
  (forall b, getShippingMethodTotals this shippingMethod x opts = Ok b ->
     ShippingMethodTotals.total b = 0 /\
     ShippingMethodTotals.subtotal b = 0 /\
     ShippingMethodTotals.tax_total b = 0) /\
  (providerReturns this -> strategyReturns this ->
   isCart x = true \/ GetShippingMethodTotalsOptions.include_tax opts = false \/
   is_Some (CO.tax_rate x) \/
   default [] (ShippingMethod.tax_lines shippingMethod) <> [] ->
   exists b, getShippingMethodTotals this shippingMethod x opts = Ok b) /\
  (isOrder x = true -> CO.tax_rate x = None ->
   GetShippingMethodTotalsOptions.include_tax opts = true ->
   default [] (ShippingMethod.tax_lines shippingMethod) = [] ->
   providerHasNoLinesFor this shippingMethod ->
   (exists e, getShippingMethodTotals this shippingMethod x opts = Throw e) /\
   (providerReturns this ->
    getShippingMethodTotals this shippingMethod x opts =
      Throw (MedusaError UNEXPECTED_STATE
        "Tax Lines must be joined on shipping method to calculate taxes"))).
Proof.
  intros Hfree. apply carriesFreeShipping_hasFreeShipping in Hfree.
  unfold getShippingMethodTotals. split; [| split].
  - intros b Hb. apply bind_Ok in Hb. destruct Hb as (totals & _ & Hb).
    inversion Hb. unfold freeShippingOverride. rewrite Hfree. now simpl.
  - intros Hprov Hstrat Hcase.
    match goal with
    | |- exists b, ?m ≫= _ = Ok b =>
        assert (Hm : exists totals, m = Ok totals);
        [| destruct Hm as [totals ->]; eexists; reflexivity]
    end.
    destruct (GetShippingMethodTotalsOptions.include_tax opts) eqn:Hinc;
      [| eexists; reflexivity].
    match goal with
    | |- exists t, shippingMethodTaxLines ?a ?b ?c ?d ?e ≫= _ = Ok t =>
        assert (Hlines : exists t0, shippingMethodTaxLines a b c d e = Ok t0);
        [| destruct Hlines as [t0 ->]; simpl;
           now apply shippingMethodTax_returns]
    end.
    unfold shippingMethodTaxLines.
    destruct (CO.tax_rate x) as [tax_rate |] eqn:Hrate; [eexists; reflexivity |].
    cbn [ShippingMethodTotals.tax_lines].
    destruct (length (default [] (ShippingMethod.tax_lines shippingMethod)) =? 0)%nat
      eqn:Hlen; [| eexists; reflexivity].
    match goal with
    | |- context [taxProviderService_ this ?a ?b] =>
        destruct (Hprov a b) as [orderLines ->]
    end.
    assert (Hcart : isOrder x = false).
    { destruct Hcase as [Hc | [Hc | [Hc | Hc]]].
      - destruct x; [reflexivity | discriminate].
      - discriminate.
      - destruct Hc; discriminate.
      - apply Nat.eqb_eq in Hlen. apply length_zero_iff_nil in Hlen. contradiction. }
    simpl. rewrite Hcart, andb_false_r. eexists; reflexivity.
  - intros Horder Hrate Hinc Hlines Hnone. rewrite Hinc.
    unfold shippingMethodTaxLines. rewrite Hrate.
    cbn [ShippingMethodTotals.tax_lines]. rewrite Hlines. cbn [length Nat.eqb].
    match goal with
    | |- context [taxProviderService_ this ?a ?b] =>
        pose proof (Hnone a b) as Hnone';
        destruct (taxProviderService_ this a b) as [orderLines | e] eqn:Hanswer
    end.
    + cbn [mbind result_bind].
      rewrite (filter_no_lines_for _ orderLines (Hnone' orderLines eq_refl)).
      cbn [length Nat.eqb andb]. rewrite Horder. cbn [mbind result_bind].
      split; [eexists; reflexivity | intros _; reflexivity].
    + cbn [mbind result_bind]. split; [now exists e |].
      intros Hprov.
      match type of Hanswer with
      | taxProviderService_ this ?a ?b = _ => destruct (Hprov a b) as [lines Hl]
      end.
      congruence.
Qed.

(** ** The legacy tax branch and the tax-lines precondition *)

(** C2 (as amended).  For an order with a tax rate: when its line items
    all have their tax lines joined, [getTaxTotal] returns
    [rounded((subtotal - discountTotal - giftCardTotal.total + shippingTotal)
    * (tax_rate / 100))] of the four totals, the quotient and the product
    taken in double precision, with no deduction of gift-card tax
    afterwards; when some line item has no tax lines joined it fails, with
    the UnexpectedState error of the tax-lines check once the gift-card
    total has been computed. *)
Theorem getTaxTotal_legacy `{Imports} (this : TotalsService) (o : Order.t)
  (r : Q) (force : bool) :
  Order.tax_rate o = Some r ->
  (taxLinesJoined o = true ->
   forall (s d sh : Q) (g : GiftCardTotals.t),
     getSubtotal this (AnOrder o) noSubtotalOptions = Ok s ->
     getDiscountTotal this (AnOrder o) = Ok d ->
     getGiftCardTotal this (AnOrder o) noGiftCardTotalOptions = Ok g ->
     getShippingTotal this (AnOrder o) = Ok sh ->
     getTaxTotal this (AnOrder o) force =
       Ok (Some (rounded
         (fmul (s - d - GiftCardTotals.total g + sh) (fdiv r 100))))) /\
  (taxLinesJoined o = false ->
   (exists e, getTaxTotal this (AnOrder o) force = Throw e) /\
   (forall g,
      getGiftCardTotal this (AnOrder o) noGiftCardTotalOptions = Ok g ->
      getTaxTotal this (AnOrder o) force =
        Throw (MedusaError UNEXPECTED_STATE
          "Order tax calculations must have tax lines joined on line items"))).
Proof.
  intros Hr. split.
  - intros Hjoined s d sh g Hs Hd Hg Hsh. unfold getTaxTotal.
    cbn [isCart andb]. rewrite Hg. cbn [mbind result_bind].
    rewrite Hjoined, Hr. cbn [negb].
    rewrite Hs. cbn [mbind result_bind]. rewrite Hsh. cbn [mbind result_bind].
    rewrite Hd. reflexivity.
  - intros Hj. unfold getTaxTotal. cbn [isCart andb].
    destruct (getGiftCardTotal this (AnOrder o) noGiftCardTotalOptions)
      as [g | e]; cbn [mbind result_bind].
    + rewrite Hj. cbn [negb]. split; [eexists; reflexivity |].
      intros g' _. reflexivity.
    + split; [now exists e |]. intros g' Hg'. discriminate Hg'.
Qed.

Lemma foldM_Throw {A B : Type} (f : B -> A -> result B) (l : list A) (x : A) :
  List.In x l ->
  (forall acc, exists e, f acc x = Throw e) ->
  forall acc, exists e, foldM f l acc = Throw e.
Proof.
  intros Hin Hx. induction l as [| a l IH]; [destruct Hin |].
  intros acc. cbn [foldM].
  destruct Hin as [-> | Hin].
  - destruct (Hx acc) as [e ->]. now exists e.
  - destruct (f acc a) as [acc' | e]; [apply (IH Hin) | now exists e].
Qed.

Lemma taxLinesJoined_false (o : Order.t) :
  taxLinesJoined o = false ->
  exists i, List.In i (Order.items o) /\ LineItem.tax_lines i = None.
Proof.
  unfold taxLinesJoined. induction (Order.items o) as [| a l IH]; [discriminate |].
  cbn [forallb]. intros Hf. apply andb_false_iff in Hf. destruct Hf as [Ha | Hl].
  - exists a. split; [now left |]. now destruct (LineItem.tax_lines a).
  - destruct (IH Hl) as (i & Hin & Hi). exists i. split; [now right | exact Hi].
Qed.

(** On an order without tax rate, the totals of an item whose tax lines
    are not joined cannot be computed. *)
Lemma getLineItemTotals_not_joined `{Imports} (this : TotalsService)
  (i : LineItem.t) (o : Order.t) (options : LineItemTotalsOptions.t) :
  Order.tax_rate o = None ->
  LineItem.tax_lines i = None ->
  LineItemTotalsOptions.include_tax options = true ->
  exists e, getLineItemTotals this i (AnOrder o) options = Throw e.
Proof.
  intros Hr Hi Hinc. unfold getLineItemTotals. rewrite Hinc.
  cbn [CO.tax_rate]. rewrite Hr. unfold lineItemTaxLines.
  cbn [isOrder]. rewrite orb_true_r, Hi. cbn [isDefined negb andb].
  destruct (truthy (LineItem.variant_id i)); eexists; reflexivity.
Qed.

Lemma getSubtotal_not_joined `{Imports} (this : TotalsService) (o : Order.t) :
  Order.tax_rate o = None ->
  taxLinesJoined o = false ->
  exists e, getSubtotal this (AnOrder o) noSubtotalOptions = Throw e.
Proof.
  intros Hr Hj. destruct (taxLinesJoined_false o Hj) as (i & Hin & Hi).
  unfold getSubtotal. cbn [CO.items SubtotalOptions.excludeNonDiscounts noSubtotalOptions].
  match goal with
  | |- exists e, foldM ?f _ _ ≫= _ = _ =>
      destruct (foldM_Throw f (Order.items o) i Hin) with (acc := 0) as [e He]
  end.
  - intros acc.
    destruct (getLineItemTotals_not_joined this i o
      {| LineItemTotalsOptions.include_tax := true;
         LineItemTotalsOptions.use_tax_lines := false;
         LineItemTotalsOptions.exclude_gift_cards := true;
         LineItemTotalsOptions.calculation_context := None |} Hr Hi eq_refl)
      as [e He].
    rewrite He. now exists e.
  - rewrite He. now exists e.
Qed.

(** C10 (as amended).  On an order some of whose line items have no tax
    lines joined, [getTaxTotal] never returns.  Once the gift-card total
    has been computed it fails with the UnexpectedState error "Order tax
    calculations must have tax lines joined on line items", whatever the
    tax rate: the check precedes the choice between the tax systems.  An
    order with a tax rate gets that far whenever its gift-card total
    returns; an order without tax rate does not: its subtotal, needed for
    the gift-card total, already fails on the item, and [getTaxTotal]
    fails with that earlier error. *)
Theorem getTaxTotal_tax_lines_not_joined `{Imports} (this : TotalsService)
  (o : Order.t) (force : bool) :
  taxLinesJoined o = false ->
  (exists e, getTaxTotal this (AnOrder o) force = Throw e) /\
  (forall g, getGiftCardTotal this (AnOrder o) noGiftCardTotalOptions = Ok g ->
     getTaxTotal this (AnOrder o) force =
       Throw (MedusaError UNEXPECTED_STATE
         "Order tax calculations must have tax lines joined on line items")) /\
  (Order.tax_rate o = None ->
   exists e, getSubtotal this (AnOrder o) noSubtotalOptions = Throw e /\
             getTaxTotal this (AnOrder o) force = Throw e).
Proof.
  intros Hj.
  assert (Hcheck : forall g,
    getGiftCardTotal this (AnOrder o) noGiftCardTotalOptions = Ok g ->
    getTaxTotal this (AnOrder o) force =
      Throw (MedusaError UNEXPECTED_STATE
        "Order tax calculations must have tax lines joined on line items")).
  { intros g Hg. unfold getTaxTotal. cbn [isCart andb]. rewrite Hg.
    cbn [mbind result_bind]. now rewrite Hj. }
  assert (Hfail : forall e,
    getGiftCardTotal this (AnOrder o) noGiftCardTotalOptions = Throw e ->
    getTaxTotal this (AnOrder o) force = Throw e).
  { intros e He. unfold getTaxTotal. cbn [isCart andb]. now rewrite He. }
  split; [| split].
  - destruct (getGiftCardTotal this (AnOrder o) noGiftCardTotalOptions)
      as [g | e] eqn:Hg.
    + eexists. now apply (Hcheck g).
    + exists e. now apply Hfail.
  - exact Hcheck.
  - intros Hr. destruct (getSubtotal_not_joined this o Hr Hj) as [e He].
    exists e. split; [exact He |]. apply Hfail.
    unfold getGiftCardTotal. cbn [GiftCardTotalOptions.gift_cardable noGiftCardTotalOptions].
    fold noSubtotalOptions. now rewrite He.
Qed.

(** ** Refunds *)

Lemma fold_left_app_flat_map {A B : Type} (f : A -> list B) (l : list A)
  (init : list B) :
  fold_left (fun acc a => acc ++ f a) l init = init ++ flat_map f l.
Proof.
  revert init. induction l as [| a l IH]; intros init; cbn [fold_left flat_map].
  - now rewrite app_nil_r.
  - now rewrite IH, app_assoc.
Qed.

Lemma refundableItemIds_pool (o : Order.t) :
  refundableItemIds o = map LineItem.id (orderItemPool o).
Proof.
  unfold refundableItemIds, orderItemPool.
  rewrite (fold_left_app_flat_map (fun c => map LineItem.id (ClaimOrder.additional_items c))).
  rewrite (fold_left_app_flat_map (fun s => map LineItem.id (Swap.additional_items s))).
  rewrite !map_app, !flat_map_concat_map, !concat_map, !map_map.
  now rewrite <- app_assoc.
Qed.

Lemma refundable_onOrder (o : Order.t) (item : LineItem.t) :
  existsb (String.eqb (LineItem.id item)) (refundableItemIds o) = true <->
  onOrder o item.
Proof.
  rewrite refundableItemIds_pool, existsb_exists. unfold onOrder. split.
  - intros (id & Hin & Heq). apply String.eqb_eq in Heq. subst id.
    apply in_map_iff in Hin. destruct Hin as (i & Hi & Hin). now exists i.
  - intros (i & Hin & Hi). exists (LineItem.id item). split.
    + rewrite <- Hi. now apply in_map.
    + apply String.eqb_refl.
Qed.

(** The loop of [getRefundTotal] from a list of refunds already collected. *)
Lemma refund_loop_present `{Imports} (this : TotalsService) (o : Order.t)
  (lineItems : list LineItem.t) (acc : list Q) :
  Forall (onOrder o) lineItems ->
  foldM (fun refunds item =>
    if negb (existsb (String.eqb (LineItem.id item)) (refundableItemIds o)) then
      Throw (MedusaError INVALID_DATA "Line item does not exist on order")
    else
      refund ← getLineItemRefund this o item;
      Ok (refunds ++ [refund])) lineItems acc =
  (refunds ← mapM (getLineItemRefund this o) lineItems; Ok (acc ++ refunds)).
Proof.
  intros Hall. revert acc.
  induction Hall as [| item l Hitem Hall IH]; intros acc; cbn [foldM mapM].
  - cbn. now rewrite app_nil_r.
  - apply refundable_onOrder in Hitem. rewrite Hitem. cbn [negb].
    destruct (getLineItemRefund this o item) as [refund | e]; [| reflexivity].
    cbn [mbind result_bind]. rewrite IH.
    destruct (mapM (getLineItemRefund this o) l) as [refunds | e]; [| reflexivity].
    cbn. now rewrite <- app_assoc.
Qed.

Lemma refund_loop_missing `{Imports} (this : TotalsService) (o : Order.t)
  (pre post : list LineItem.t) (item : LineItem.t) (refunds acc : list Q) :
  ~ onOrder o item ->
  mapM (getLineItemRefund this o) pre = Ok refunds ->
  foldM (fun refunds item =>
    if negb (existsb (String.eqb (LineItem.id item)) (refundableItemIds o)) then
      Throw (MedusaError INVALID_DATA "Line item does not exist on order")
    else
      refund ← getLineItemRefund this o item;
      Ok (refunds ++ [refund])) (pre ++ item :: post) acc =
  Throw (MedusaError INVALID_DATA "Line item does not exist on order").
Proof.
  intros Hmiss. revert refunds acc.
  induction pre as [| a pre IH]; intros refunds acc Hpre; cbn [foldM app].
  - rewrite <- refundable_onOrder in Hmiss. apply not_true_is_false in Hmiss.
    now rewrite Hmiss.
  - destruct (existsb (String.eqb (LineItem.id a)) (refundableItemIds o));
      [| reflexivity].
    cbn [negb]. cbn [mapM] in Hpre. apply bind_Ok in Hpre.
    destruct Hpre as (refund & Ha & Hpre). rewrite Ha. cbn [mbind result_bind].
    apply bind_Ok in Hpre. destruct Hpre as (rest & Hrest & _).
    now apply (IH rest).
Qed.


(** C8 (as amended).  For an order without tax rate none of whose items
    has quantity 0, and a line item with tax lines whose price does not
    include tax, [getLineItemRefund] returns [S] plus, for each tax line,
    [S * (rate / 100)] rounded on its own, where [S] is
    [unit_price * quantity] minus [quantity] times the per-unit discount
    the allocation map holds for the item's id, the quotients and the
    products with them taken in double precision. *)
Theorem getLineItemRefund_tax_lines `{Imports} (this : TotalsService)
  (o : Order.t) (lineItem : LineItem.t) (lines : list TaxLine) :
  Order.tax_rate o = None ->
  LineItem.tax_lines lineItem = Some lines ->
  taxInclusivePricing this && LineItem.includes_tax lineItem = false ->
  quantitiesNonZero (AnOrder o) ->
  let S :=
    fsub (LineItem.unit_price lineItem * LineItem.quantity lineItem)
      (fmul (unitDiscount (getAllocationMap (AnOrder o) noAllocationMapOptions)
               (LineItem.id lineItem))
         (LineItem.quantity lineItem)) in
  getLineItemRefund this o lineItem =
    Ok (fadd S
          (fold_left (fun acc next => acc + rounded (fmul S (fdiv (rate next) 100)))
             lines 0)).
Proof.
  intros Hr Hlines Hinc _ S. unfold getLineItemRefund.
  rewrite Hr, Hlines, Hinc. cbn [negb].
  match goal with
  | |- context [fsub ?a ?b] =>
      assert (HS : fsub a b = S) by (apply fl_comp; ring)
  end.
  rewrite HS. reflexivity.
Qed.

(** ** Legacy orders and the tax collaborators *)

Lemma foldM_ext {A B : Type} (f g : B -> A -> result B) (l : list A) (acc : B) :
  (forall acc x, List.In x l -> f acc x = g acc x) ->
  foldM f l acc = foldM g l acc.
Proof.
  revert acc. induction l as [| x l IH]; intros acc Hfg; [reflexivity |].
  cbn [foldM]. rewrite Hfg by now left.
  destruct (g acc x); [| reflexivity].
  apply IH. intros acc' y Hy. apply Hfg. now right.
Qed.

(** Two services that share the gift-card calculator and the feature
    flags, on an order of the old tax system. *)
Section TwoServices.
Context `{Imports}.
Variables this1 this2 : TotalsService.
Variable o : Order.t.
Variable r : Q.
Hypothesis legacy : Order.tax_rate o = Some r.
Hypothesis same_gift_cards : newTotalsService_ this1 = newTotalsService_ this2.
Hypothesis same_flags : featureFlagRouter_ this1 = featureFlagRouter_ this2.
Hypothesis strategies :
  taxCalculationStrategy_ this1 = taxCalculationStrategy_ this2 \/
  (taxInclusivePricing this1 = false /\
   strategyReturns this1 /\ strategyReturns this2) \/
  carriesNoTaxLines o.

Lemma same_taxInclusivePricing : taxInclusivePricing this1 = taxInclusivePricing this2.
Proof. unfold taxInclusivePricing. now rewrite same_flags. Qed.

Lemma lineItemTax_subtotal (lineItem : LineItem.t)
  (context : TaxCalculationContext.t) (totals : LineItemTotals.t) :
  List.In lineItem (Order.items o) ->
  (t ← lineItemTax this1 lineItem context totals
         (default [] (LineItem.tax_lines lineItem));
   Ok (LineItemTotals.subtotal t)) =
  (t ← lineItemTax this2 lineItem context totals
         (default [] (LineItem.tax_lines lineItem));
   Ok (LineItemTotals.subtotal t)).
Proof.
  intros Hin. unfold lineItemTax. rewrite <- same_taxInclusivePricing.
  destruct strategies as [Hsame | [(Hoff & Hret1 & Hret2) | [Hitems _]]].
  - now rewrite Hsame.
  - set (tax_lines := default [] (LineItem.tax_lines lineItem)).
    destruct (0 <? length tax_lines)%nat; [| reflexivity].
    rewrite Hoff. cbn [andb].
    destruct (Hret1 [lineItem] tax_lines context) as [a1 ->].
    destruct (Hret2 [lineItem] tax_lines context) as [a2 ->].
    cbn [mbind result_bind].
    destruct (Hret1 [lineItem] tax_lines (with_allocation_map context ∅)) as [b1 ->].
    destruct (Hret2 [lineItem] tax_lines (with_allocation_map context ∅)) as [b2 ->].
    reflexivity.
  - now rewrite (Hitems lineItem Hin).
Qed.

Lemma getLineItemTotals_legacy_subtotal (lineItem : LineItem.t)
  (options : LineItemTotalsOptions.t) :
  List.In lineItem (Order.items o) ->
  LineItemTotalsOptions.include_tax options = true ->
  (t ← getLineItemTotals this1 lineItem (AnOrder o) options;
   Ok (LineItemTotals.subtotal t)) =
  (t ← getLineItemTotals this2 lineItem (AnOrder o) options;
   Ok (LineItemTotals.subtotal t)).
Proof.
  intros Hin Hinc. unfold getLineItemTotals. rewrite Hinc.
  cbn [CO.tax_rate]. rewrite legacy. cbn [mbind result_bind].
  unfold legacyLineItemTotals. rewrite <- same_taxInclusivePricing.
  now apply lineItemTax_subtotal.
Qed.

Lemma getSubtotal_legacy (opts : SubtotalOptions.t) :
  getSubtotal this1 (AnOrder o) opts = getSubtotal this2 (AnOrder o) opts.
Proof.
  unfold getSubtotal. f_equal. apply foldM_ext. intros acc item Hin.
  pose proof (getLineItemTotals_legacy_subtotal item
    {| LineItemTotalsOptions.include_tax := true;
       LineItemTotalsOptions.use_tax_lines := false;
       LineItemTotalsOptions.exclude_gift_cards := true;
       LineItemTotalsOptions.calculation_context := None |} Hin eq_refl) as Hitem.
  destruct (SubtotalOptions.excludeNonDiscounts opts);
    [destruct (LineItem.allow_discounts item); [| reflexivity] |];
    now rewrite Hitem.
Qed.

Lemma shippingMethodTax_subtotal (shippingMethod : ShippingMethod.t)
  (context : TaxCalculationContext.t) (totals : ShippingMethodTotals.t)
  (x : CartOrOrder) :
  List.In shippingMethod (Order.shipping_methods o) ->
  ShippingMethodTotals.tax_lines totals =
    default [] (ShippingMethod.tax_lines shippingMethod) ->
  (t ← shippingMethodTax this1 shippingMethod context totals;
   Ok (ShippingMethodTotals.subtotal (freeShippingOverride x t))) =
  (t ← shippingMethodTax this2 shippingMethod context totals;
   Ok (ShippingMethodTotals.subtotal (freeShippingOverride x t))).
Proof.
  intros Hin Hlines. unfold shippingMethodTax. rewrite <- same_taxInclusivePricing.
  destruct strategies as [Hsame | [(Hoff & Hret1 & Hret2) | [_ Hmethods]]].
  - now rewrite Hsame.
  - destruct (0 <? length (ShippingMethodTotals.tax_lines totals))%nat;
      [| reflexivity].
    rewrite Hoff. cbn [andb].
    destruct (Hret1 [] (ShippingMethodTotals.tax_lines totals) context) as [a1 ->].
    destruct (Hret2 [] (ShippingMethodTotals.tax_lines totals) context) as [a2 ->].
    cbn [mbind result_bind]. unfold freeShippingOverride.
    now destruct (hasFreeShipping x).
  - now rewrite Hlines, (Hmethods shippingMethod Hin).
Qed.

Lemma getShippingTotal_legacy :
  getShippingTotal this1 (AnOrder o) = getShippingTotal this2 (AnOrder o).
Proof.
  unfold getShippingTotal. apply foldM_ext. intros acc shippingMethod Hin.
  unfold getShippingMethodTotals.
  cbn [GetShippingMethodTotalsOptions.include_tax
       GetShippingMethodTotalsOptions.calculation_context].
  unfold shippingMethodTaxLines. cbn [CO.tax_rate]. rewrite legacy.
  cbn [mbind result_bind].
  match goal with
  | |- context [shippingMethodTax this1 ?sm ?c ?t] =>
      pose proof (shippingMethodTax_subtotal sm c t (AnOrder o) Hin eq_refl) as Hsm;
      destruct (shippingMethodTax this1 sm c t) as [t1 | e1];
      destruct (shippingMethodTax this2 sm c t) as [t2 | e2]
  end; cbn [mbind result_bind] in *; congruence.
Qed.

Lemma getDiscountTotal_legacy :
  getDiscountTotal this1 (AnOrder o) = getDiscountTotal this2 (AnOrder o).
Proof. unfold getDiscountTotal. now rewrite getSubtotal_legacy. Qed.

Lemma getGiftCardTotal_legacy (opts : GiftCardTotalOptions.t) :
  getGiftCardTotal this1 (AnOrder o) opts = getGiftCardTotal this2 (AnOrder o) opts.
Proof.
  unfold getGiftCardTotal.
  now rewrite getSubtotal_legacy, getDiscountTotal_legacy, same_gift_cards.
Qed.

Lemma getTaxTotal_legacy_same (force : bool) :
  getTaxTotal this1 (AnOrder o) force = getTaxTotal this2 (AnOrder o) force.
Proof.
  unfold getTaxTotal. cbn [isCart andb]. rewrite getGiftCardTotal_legacy.
  destruct (getGiftCardTotal this2 (AnOrder o) noGiftCardTotalOptions) as [g | e];
    [| reflexivity].
  cbn [mbind result_bind].
  destruct (negb (taxLinesJoined o)); [reflexivity |].
  rewrite legacy.
  now rewrite getSubtotal_legacy, getShippingTotal_legacy, getDiscountTotal_legacy.
Qed.

End TwoServices.


(** ** Allocation map *)

Lemma fold_allocate_other (lds : list LineDiscountAmount.t)
  (m : gmap string LineAllocation.t) (id : string) :
  ~ List.In id (map (fun ld => LineItem.id (LineDiscountAmount.item ld)) lds) ->
  fold_left allocate lds m !! id = m !! id.
Proof.
  revert m. induction lds as [| a lds IH]; intros m Hnotin; [reflexivity |].
  cbn [fold_left]. rewrite IH by (intros Hin; apply Hnotin; now right).
  assert (Hne : LineItem.id (LineDiscountAmount.item a) <> id)
    by (intros Heq; apply Hnotin; now left).
  unfold allocate.
  destruct (m !! LineItem.id (LineDiscountAmount.item a));
    now rewrite lookup_insert_ne.
Qed.

(** The entry of a line whose id is listed once and was not in the map:
    the unit amount is rounded. *)
Lemma fold_allocate_fresh (lds : list LineDiscountAmount.t)
  (m : gmap string LineAllocation.t) (ld : LineDiscountAmount.t) :
  NoDup (map (fun ld => LineItem.id (LineDiscountAmount.item ld)) lds) ->
  (forall ld', List.In ld' lds -> m !! LineItem.id (LineDiscountAmount.item ld') = None) ->
  List.In ld lds ->
  fold_left allocate lds m !! LineItem.id (LineDiscountAmount.item ld) =
  Some {| LineAllocation.discount := Some
    {| DiscountAllocation.amount :=
         LineDiscountAmount.amount ld + LineDiscountAmount.customAdjustmentsAmount ld;
       DiscountAllocation.unit_amount :=
         Math_round
           ((LineDiscountAmount.amount ld + LineDiscountAmount.customAdjustmentsAmount ld)
            / LineItem.quantity (LineDiscountAmount.item ld)) |} |}.
Proof.
  revert m. induction lds as [| a lds IH]; intros m Hnodup Hfresh Hin;
    [destruct Hin |].
  cbn [map] in Hnodup. apply NoDup_cons in Hnodup. destruct Hnodup as [Hhead Hnodup].
  cbn [fold_left].
  assert (Hstep : allocate m a =
    <[LineItem.id (LineDiscountAmount.item a) :=
        {| LineAllocation.discount := Some
          {| DiscountAllocation.amount :=
               LineDiscountAmount.amount a + LineDiscountAmount.customAdjustmentsAmount a;
             DiscountAllocation.unit_amount :=
               Math_round
                 ((LineDiscountAmount.amount a
                   + LineDiscountAmount.customAdjustmentsAmount a)
                  / LineItem.quantity (LineDiscountAmount.item a)) |} |}]> m).
  { unfold allocate. now rewrite (Hfresh a (or_introl eq_refl)). }
  rewrite Hstep. destruct Hin as [-> | Hin].
  - rewrite fold_allocate_other by (now rewrite <- list_elem_of_In).
    apply lookup_insert_eq.
  - apply IH; [exact Hnodup | | exact Hin].
    intros ld' Hin'. rewrite lookup_insert_ne.
    + apply Hfresh. now right.
    + intros Heq. apply Hhead. rewrite Heq. apply list_elem_of_In.
      now apply (in_map (fun ld => LineItem.id (LineDiscountAmount.item ld))).
Qed.

(** Where every id is listed once, the map holds for each item the amount
    the specification allocates and, as unit amount, that amount divided
    by the quantity and rounded. *)
Lemma getAllocationMap_listed_once (x : CartOrOrder) (item : LineItem.t) :
  NoDup (map LineItem.id (mergedItems x)) ->
  List.In item (mergedItems x) ->
  getAllocationMap x noAllocationMapOptions !! LineItem.id item =
  Some {| LineAllocation.discount := Some
    {| DiscountAllocation.amount := allocatedAmount x item;
       DiscountAllocation.unit_amount :=
         Math_round (allocatedAmount x item / LineItem.quantity item) |} |}.
Proof.
  intros Hnodup Hin. unfold getAllocationMap.
  cbn [AllocationMapOptions.exclude_discounts noAllocationMapOptions].
  fold (allocatingDiscount x). unfold getLineDiscounts.
  pose proof (fold_allocate_fresh
    (map (lineDiscountAmount (allocatingDiscount x)) (mergedItems x)) ∅
    (lineDiscountAmount (allocatingDiscount x) item)) as Hfold.
  cbn [lineDiscountAmount LineDiscountAmount.item LineDiscountAmount.amount
       LineDiscountAmount.customAdjustmentsAmount] in Hfold.
  rewrite Hfold; clear Hfold.
  - unfold allocatedAmount. destruct (allocatingDiscount x); reflexivity.
  - now rewrite map_map.
  - intros ld' _. apply lookup_empty.
  - now apply in_map.
Qed.

(** * Examples

    The properties above at concrete carts and orders, with the sample
    collaborators. *)

Section Examples.
#[local] Existing Instance sampleImports.

(** C1 at the legacy example order: 1000 + 238 + 50 - 100 - 0. *)
Lemma getTotal_decomposition_witness :
  getTotal plainService (AnOrder legacyExampleOrder) defaultTotalsOptions =
  Ok (1000 + 238 + 50 - 100 - 0).
Proof.
  apply getTotal_decomposition.
  exists 1000, (Some 238), 100, 0, 50.
  split; [vm_compute; reflexivity |].
  split; [vm_compute; reflexivity |].
  split; [vm_compute; reflexivity |].
  split; [exists noGiftCardTotals; split; [vm_compute; reflexivity | reflexivity] |].
  split; [vm_compute; reflexivity | reflexivity].
Defined.

(** C2 (as amended) at the example of the specification: subtotal 1000,
    discount 100, shipping 50, no gift cards, tax rate 25 give 238. *)
Lemma getTaxTotal_legacy_witness :
  getTaxTotal plainService (AnOrder legacyExampleOrder) false = Ok (Some 238).
Proof.
  destruct (getTaxTotal_legacy plainService legacyExampleOrder 25 false) as [Hjoined _];
    [reflexivity |].
  rewrite (Hjoined eq_refl 1000 100 50 noGiftCardTotals);
    [| vm_compute; reflexivity | vm_compute; reflexivity
     | vm_compute; reflexivity | vm_compute; reflexivity].
  vm_compute. reflexivity.
Defined.

(** C2 (as amended), the double-precision product: for a subtotal of 50
    at the tax rate 29 the tax is 14, since [50 * (29 / 100)] is
    14.499999999999998 in doubles; the exact product 14.5 rounds to 15. *)
Lemma getTaxTotal_legacy_odd_rate :
  getTaxTotal plainService (AnOrder oddRateOrder) false = Ok (Some 14) /\
  fmul 50 (fdiv 29 100) < 50 * (29 / 100) /\
  rounded (50 * (29 / 100)) = 15.
Proof.
  split; [vm_compute; reflexivity |]. split; vm_compute; reflexivity.
Qed.

(** C2, the claim as stated fails: on the same order with the tax lines
    of its item not joined the four totals are 1000, 100, 0 and 50, and
    [getTaxTotal] fails instead of returning 238. *)
Lemma getTaxTotal_legacy_not_joined_fails :
  Order.tax_rate unjoinedLegacyOrder = Some 25 /\
  getSubtotal plainService (AnOrder unjoinedLegacyOrder) noSubtotalOptions = Ok 1000 /\
  getDiscountTotal plainService (AnOrder unjoinedLegacyOrder) = Ok 100 /\
  getGiftCardTotal plainService (AnOrder unjoinedLegacyOrder) noGiftCardTotalOptions =
    Ok noGiftCardTotals /\
  getShippingTotal plainService (AnOrder unjoinedLegacyOrder) = Ok 50 /\
  rounded (fmul (1000 - 100 - 0 + 50) (fdiv 25 100)) = 238 /\
  getTaxTotal plainService (AnOrder unjoinedLegacyOrder) false <> Ok (Some 238).
Proof.
  repeat split; try (vm_compute; reflexivity).
  vm_compute. discriminate.
Qed.

(** C4 (as amended) at the legacy example order: the discount total 100
    against the discountable subtotal 1000. *)
Lemma getDiscountTotal_clamp_witness :
  exists d,
    getDiscountTotal plainService (AnOrder legacyExampleOrder) = Ok d /\
    Qabs d <= Qabs 1000 /\
    (d == 0 \/ (0 < d /\ 0 < 1000) \/ (d < 0 /\ 1000 < 0)).
Proof.
  destruct (getDiscountTotal_clamp plainService (AnOrder legacyExampleOrder) 1000)
    as (d & Hd & _ & _ & Hsign); [vm_compute; reflexivity |].
  exists d. split; [exact Hd |].
  apply Hsign.
  - intros _. vm_compute. intros Hgt. discriminate Hgt.
  - intros Hneg. vm_compute in Hneg. discriminate Hneg.
Defined.

(** C4, the claim as stated fails: on a swap cart whose discountable
    subtotal is -200 and whose adjustments sum to 250, the discount total
    is 250, larger in magnitude than the subtotal and of the other sign. *)
Lemma getDiscountTotal_exceeds_subtotal :
  getSubtotal plainService (ACart swapCart)
    {| SubtotalOptions.excludeNonDiscounts := true |} = Ok (- 200) /\
  getDiscountTotal plainService (ACart swapCart) = Ok 250 /\
  ~ Qabs 250 <= Qabs (- 200) /\
  ~ (250 == 0 \/ (0 < 250 /\ 0 < - 200) \/ (250 < 0 /\ - 200 < 0)).
Proof.
  split; [vm_compute; reflexivity |].
  split; [vm_compute; reflexivity |].
  split.
  - intros Hle. vm_compute in Hle. now apply Hle.
  - intros [Hz | [[_ Hpos] | [Hneg _]]].
    + vm_compute in Hz. discriminate Hz.
    + vm_compute in Hpos. discriminate Hpos.
    + vm_compute in Hneg. discriminate Hneg.
Qed.

(** C5 (as amended) at a cart with a FREE_SHIPPING discount whose method
    of 50 gets a tax of 5, and at an order without tax rate with the same
    discount, for whose method the provider has no tax line. *)
Lemma getShippingMethodTotals_free_shipping_witness :
  (exists b,
     getShippingMethodTotals (sampleService false [ShippingMethodTaxLine 10 "sm_1"] 5)
       plainShippingMethod (ACart freeShippingCart) withTax = Ok b /\
     ShippingMethodTotals.total b = 0 /\
     ShippingMethodTotals.subtotal b = 0 /\
     ShippingMethodTotals.tax_total b = 0) /\
  getShippingMethodTotals plainService plainShippingMethod
    (AnOrder freeShippingOrder) withTax =
  Throw (MedusaError UNEXPECTED_STATE
    "Tax Lines must be joined on shipping method to calculate taxes").
Proof.
  assert (Hfree : forall x,
    CO.discounts x = Some [sampleDiscount "disc_free" FREE_SHIPPING] ->
    carriesFreeShipping x).
  { intros x Hx.
    exists [sampleDiscount "disc_free" FREE_SHIPPING],
      (sampleDiscount "disc_free" FREE_SHIPPING).
    split; [exact Hx | split; [left; reflexivity | reflexivity]]. }
  split.
  - destruct (getShippingMethodTotals_free_shipping
                (sampleService false [ShippingMethodTaxLine 10 "sm_1"] 5)
                plainShippingMethod (ACart freeShippingCart) withTax
                (Hfree (ACart freeShippingCart) eq_refl))
      as (Hzero & Hreturns & _).
    destruct Hreturns as [b Hb].
    + intros items context. eexists. reflexivity.
    + intros items lines context. eexists. reflexivity.
    + left. reflexivity.
    + exists b. split; [exact Hb | exact (Hzero b Hb)].
  - destruct (getShippingMethodTotals_free_shipping plainService
                plainShippingMethod (AnOrder freeShippingOrder) withTax
                (Hfree (AnOrder freeShippingOrder) eq_refl))
      as (_ & _ & Hfails).
    apply Hfails; try reflexivity.
    + intros items context lines Hlines r Hin.
      inversion Hlines. subst lines. destruct Hin.
    + intros items context. eexists. reflexivity.
Defined.

(** C5, the claim as stated fails: on an order without tax rate that
    carries a FREE_SHIPPING discount, a method without tax lines, for which
    the provider has none either, gets no breakdown under [include_tax]. *)
Lemma getShippingMethodTotals_free_shipping_order_fails :
  carriesFreeShipping (AnOrder freeShippingOrder) /\
  getShippingMethodTotals plainService plainShippingMethod
    (AnOrder freeShippingOrder) withTax =
  Throw (MedusaError UNEXPECTED_STATE
    "Tax Lines must be joined on shipping method to calculate taxes").
Proof.
  split; [| vm_compute; reflexivity].
  exists [sampleDiscount "disc_free" FREE_SHIPPING],
    (sampleDiscount "disc_free" FREE_SHIPPING).
  split; [reflexivity | split; [left; reflexivity | reflexivity]].
Qed.





(** C8 (as amended) at an item of 10 taxed at 25%: the refund is
    10 + rounded(2.5) = 13. *)
Lemma getLineItemRefund_tax_lines_witness :
  getLineItemRefund plainService quarterTaxedOrder quarterTaxedItem = Ok 13.
Proof.
  rewrite (getLineItemRefund_tax_lines plainService quarterTaxedOrder quarterTaxedItem
             [LineItemTaxLine 25 "item_1"]);
    [vm_compute; reflexivity | reflexivity | reflexivity | reflexivity |].
  repeat constructor. intros Hq. vm_compute in Hq. discriminate Hq.
Defined.

(** C8 (as amended), the double-precision product: an item of 50 with one
    tax line of 29% is refunded 64, since [50 * (29 / 100)] is
    14.499999999999998 in doubles; the exact product 14.5 rounds to 15. *)
Lemma getLineItemRefund_odd_rate :
  getLineItemRefund plainService oddRateLinesOrder oddRateItem = Ok 64 /\
  rounded (50 * (29 / 100)) = 15.
Proof.
  split; vm_compute; reflexivity.
Qed.

(** C8, the claim as stated fails: for that item [S = 10] and the rates
    sum to 25, so that [S + S * 25 / 100] is 12.5, but the refund is 13. *)
Lemma getLineItemRefund_rounds_each_tax_line :
  Order.tax_rate quarterTaxedOrder = None /\
  getLineItemRefund plainService quarterTaxedOrder quarterTaxedItem = Ok 13 /\
  ~ 13 == 10 + 10 * 25 / 100.
Proof.
  split; [reflexivity |]. split; [vm_compute; reflexivity |].
  intros Heq. vm_compute in Heq. discriminate Heq.
Qed.

(** C9, the code at the failing input: for an item of quantity 2 listed
    twice and allocated the amount 1, the entry's unit amount is 1/2, not
    the rounded 1. *)
Lemma getAllocationMap_twice_listed_unrounded :
  getAllocationMap (AnOrder twiceListedOrder) noAllocationMapOptions
    !! LineItem.id twiceListedItem =
  Some {| LineAllocation.discount := Some
    {| DiscountAllocation.amount := 1; DiscountAllocation.unit_amount := 1 # 2 |} |} /\
  allocatedAmount (AnOrder twiceListedOrder) twiceListedItem == 1 /\
  Math_round (1 / LineItem.quantity twiceListedItem) = 1 /\
  ~ (1 # 2) == 1.
Proof.
  split; [vm_compute; reflexivity |].
  split; [vm_compute; reflexivity |].
  split; [vm_compute; reflexivity |].
  intros Heq. vm_compute in Heq. discriminate Heq.
Qed.

(** C10 (as amended) at the legacy example order with the tax lines of
    its item not joined. *)
Lemma getTaxTotal_tax_lines_not_joined_witness :
  getTaxTotal plainService (AnOrder unjoinedLegacyOrder) false =
  Throw (MedusaError UNEXPECTED_STATE
    "Order tax calculations must have tax lines joined on line items").
Proof.
  destruct (getTaxTotal_tax_lines_not_joined plainService unjoinedLegacyOrder false)
    as (_ & Hcheck & _); [vm_compute; reflexivity |].
  apply (Hcheck noGiftCardTotals). vm_compute. reflexivity.
Defined.

(** C10, the claim as stated fails: on an order without tax rate whose
    item has no tax lines joined, [getTaxTotal] fails with another
    UnexpectedState error, raised while the subtotal is computed. *)
Lemma getTaxTotal_new_system_other_error :
  taxLinesJoined unjoinedOrder = false /\
  getTaxTotal plainService (AnOrder unjoinedOrder) false =
  Throw (MedusaError UNEXPECTED_STATE
    "Tax Lines must be joined on items to calculate taxes").
Proof.
  split; vm_compute; reflexivity.
Qed.

End Examples.

(** * Further properties *)

(** ** Allocation map: keys and entries *)

Lemma fold_allocate_is_Some (lds : list LineDiscountAmount.t)
  (m : gmap string LineAllocation.t) (id : string) :
  is_Some (fold_left allocate lds m !! id) <->
  is_Some (m !! id) \/
  List.In id (map (fun ld => LineItem.id (LineDiscountAmount.item ld)) lds).
Proof.
  revert m. induction lds as [| a lds IH]; intros m; cbn [fold_left map List.In].
  - tauto.
  - rewrite IH. unfold allocate.
    destruct (decide (LineItem.id (LineDiscountAmount.item a) = id)) as [Heq | Hne].
    + subst id.
      destruct (m !! LineItem.id (LineDiscountAmount.item a)) eqn:Hma;
        rewrite lookup_insert_eq;
        (split; [intros _; right; left; reflexivity | intros _; left; eauto]).
    + destruct (m !! LineItem.id (LineDiscountAmount.item a));
        rewrite lookup_insert_ne by exact Hne; tauto.
Qed.

Lemma fold_allocate_discount (lds : list LineDiscountAmount.t)
  (m : gmap string LineAllocation.t) :
  (forall id e, m !! id = Some e -> is_Some (LineAllocation.discount e)) ->
  forall id e, fold_left allocate lds m !! id = Some e ->
               is_Some (LineAllocation.discount e).
Proof.
  revert m. induction lds as [| a lds IH]; intros m Hm; [exact Hm |].
  cbn [fold_left]. apply IH. intros id e. unfold allocate.
  destruct (m !! LineItem.id (LineDiscountAmount.item a));
    (destruct (decide (LineItem.id (LineDiscountAmount.item a) = id)) as [Heq | Hne];
     [subst id; rewrite lookup_insert_eq; intros [= <-]; eexists; reflexivity
     | rewrite lookup_insert_ne by exact Hne; apply Hm]).
Qed.

(** X1.  The keys of the allocation map are exactly the ids of the items
    of the aggregate, of its swaps' additional items and of its claims'
    additional items, and none under [exclude_discounts]; every entry
    holds a discount allocation. *)
Theorem getAllocationMap_keys (x : CartOrOrder) (options : AllocationMapOptions.t)
  (id : string) :
  (is_Some (getAllocationMap x options !! id) <->
   AllocationMapOptions.exclude_discounts options = false /\
   List.In id (mergedIds x)) /\
  (forall e, getAllocationMap x options !! id = Some e ->
             is_Some (LineAllocation.discount e)).
Proof.
  unfold getAllocationMap, mergedIds.
  destruct (AllocationMapOptions.exclude_discounts options).
  - split.
    + rewrite lookup_empty. split; [intros [e He]; discriminate | intros [Hf _]; discriminate].
    + intros e. rewrite lookup_empty. discriminate.
  - split.
    + rewrite fold_allocate_is_Some. unfold getLineDiscounts.
      rewrite map_map. cbn [lineDiscountAmount LineDiscountAmount.item].
      rewrite lookup_empty. split.
      * intros [[e He] | Hin]; [discriminate | now split].
      * intros [_ Hin]. now right.
    + apply fold_allocate_discount. intros id' e. rewrite lookup_empty. discriminate.
Qed.

Lemma fold_allocate_last (pre post : list LineDiscountAmount.t)
  (ld : LineDiscountAmount.t) (m : gmap string LineAllocation.t) :
  let ids := map (fun ld => LineItem.id (LineDiscountAmount.item ld)) in
  let id := LineItem.id (LineDiscountAmount.item ld) in
  let amount :=
    LineDiscountAmount.amount ld + LineDiscountAmount.customAdjustmentsAmount ld in
  ~ List.In id (ids post) ->
  m !! id = None ->
  fold_left allocate (pre ++ ld :: post) m !! id =
  Some {| LineAllocation.discount := Some
    {| DiscountAllocation.amount := amount;
       DiscountAllocation.unit_amount :=
         storedUnitAmount (existsb (String.eqb id) (ids pre)) amount
           (LineItem.quantity (LineDiscountAmount.item ld)) |} |}.
Proof.
  intros ids id amount Hpost Hm. subst ids amount.
  rewrite fold_left_app. cbn [fold_left].
  rewrite fold_allocate_other by exact Hpost.
  set (pre_ids := map (fun ld => LineItem.id (LineDiscountAmount.item ld)) pre) in *.
  assert (Hlookup : is_Some (fold_left allocate pre m !! id) <-> List.In id pre_ids).
  { rewrite fold_allocate_is_Some. rewrite Hm. split; [| now right].
    intros [[e He] | Hin]; [discriminate | exact Hin]. }
  remember (fold_left allocate pre m) as m' eqn:Hm'. clear Hm'.
  unfold allocate. fold id.
  destruct (existsb (String.eqb id) pre_ids) eqn:Hpre.
  - apply existsb_exists in Hpre. destruct Hpre as (id' & Hin & Heq).
    apply String.eqb_eq in Heq. subst id'.
    apply Hlookup in Hin. destruct Hin as [e He]. rewrite He.
    now rewrite lookup_insert_eq.
  - assert (Hnone : m' !! id = None).
    { apply eq_None_not_Some. rewrite Hlookup. intros Hin.
      apply not_true_iff_false in Hpre. apply Hpre.
      apply existsb_exists. exists id. split; [exact Hin | apply String.eqb_refl]. }
    rewrite Hnone. now rewrite lookup_insert_eq.
Qed.


(** ** Adjustments total *)

Lemma adjustments_loop_defined (post : list LineItem.t) (acc : Q) :
  Forall (fun i => isDefined (LineItem.adjustments i) = true) post ->
  fold_left (fun total item =>
    match LineItem.adjustments item with
    | Some adjustments => total + sumAdjustments adjustments
    | None => 0
    end) post acc == acc + adjustmentsSum post.
Proof.
  intros Hall. revert acc.
  induction Hall as [| i post Hi Hall IH]; intros acc; cbn [fold_left adjustmentsSum fold_right].
  - ring.
  - destruct (LineItem.adjustments i) as [adjustments |]; [| discriminate Hi].
    rewrite IH. change (default [] (Some adjustments)) with adjustments.
    fold (adjustmentsSum post). ring.
Qed.


(** ** Integer results *)

Ltac break_result H :=
  repeat first
    [ apply bind_Ok in H; destruct H as (? & ? & H)
    | match type of H with
      | context [match ?s with _ => _ end] => destruct s eqn:?
      end ];
  try discriminate.

(** X4.  Whatever [getSubtotal], [getDiscountTotal] and [getTaxTotal]
    (when not [null]) return is an integer, and so is what
    [getRefundTotal] returns for an order none of whose items has quantity
    0, whatever the prices, rates and collaborator answers. *)
Theorem totals_are_integers `{Imports} (this : TotalsService) (x : CartOrOrder) :
  (forall opts v, getSubtotal this x opts = Ok v -> isInteger v) /\
  (forall v, getDiscountTotal this x = Ok v -> isInteger v) /\
  (forall force v, getTaxTotal this x force = Ok (Some v) -> isInteger v) /\
  (forall o lineItems v,
     quantitiesNonZero (AnOrder o) ->
     getRefundTotal this o lineItems = Ok v -> isInteger v).
Proof.
  split; [| split; [| split]].
  - intros opts v Hv. unfold getSubtotal in Hv. inv_Ok. eexists; reflexivity.
  - intros v Hv. unfold getDiscountTotal in Hv. apply bind_Ok in Hv.
    destruct Hv as (s & _ & Hv).
    destruct (Qltb s 0); inversion Hv; eexists; reflexivity.
  - intros force v Hv. unfold getTaxTotal in Hv.
    destruct (isCart x && negb force && negb (Region.automatic_taxes (CO.region x)));
      [discriminate |].
    apply bind_Ok in Hv. destruct Hv as (g & _ & Hv).
    destruct x as [cart | order].
    + apply bind_Ok in Hv. destruct Hv as (lines & _ & Hv).
      destruct (Cart.type cart); break_result Hv;
        inversion Hv; eexists; reflexivity.
    + destruct (negb (taxLinesJoined order)); [discriminate |].
      destruct (Order.tax_rate order); break_result Hv;
        inversion Hv; eexists; reflexivity.
  - intros o lineItems v _ Hv. unfold getRefundTotal in Hv. inv_Ok.
    eexists; reflexivity.
Qed.

(** ** The null tax total *)

(** X5.  [getTaxTotal] returns [null] exactly for a cart whose region has
    no automatic taxes when taxes are not forced; it then consults no
    collaborator.  Every other result it returns is a number. *)
Theorem getTaxTotal_null `{Imports} (this : TotalsService) (x : CartOrOrder)
  (force : bool) :
  getTaxTotal this x force = Ok None <->
  isCart x = true /\ force = false /\
  Region.automatic_taxes (CO.region x) = false.
Proof.
  unfold getTaxTotal. split.
  - intros Hv.
    destruct (isCart x) eqn:Hcart, force eqn:Hforce,
      (Region.automatic_taxes (CO.region x)) eqn:Hauto; cbn [andb negb] in Hv;
      try (repeat split; reflexivity); exfalso;
      (apply bind_Ok in Hv; destruct Hv as (g & _ & Hv);
       destruct x as [cart | order];
       [ apply bind_Ok in Hv; destruct Hv as (lines & _ & Hv);
         destruct (Cart.type cart); break_result Hv
       | destruct (negb (taxLinesJoined order)); [discriminate |];
         destruct (Order.tax_rate order); break_result Hv ]).
  - intros (-> & -> & ->). reflexivity.
Qed.

(** ** Subtotal, shipping total and discount total *)

Lemma foldM_invariant {A B : Type} (P : B -> Prop) (f : B -> A -> result B)
  (l : list A) (acc r : B) :
  P acc ->
  (forall acc x acc', List.In x l -> P acc -> f acc x = Ok acc' -> P acc') ->
  foldM f l acc = Ok r -> P r.
Proof.
  revert acc. induction l as [| x l IH]; intros acc Hacc Hstep Hr; cbn [foldM] in Hr.
  - now inversion Hr; subst.
  - apply bind_Ok in Hr. destruct Hr as (acc' & Hx & Hr).
    apply (IH acc'); [| | exact Hr].
    + apply (Hstep acc x acc'); [now left | exact Hacc | exact Hx].
    + intros a y a' Hy. apply Hstep. now right.
Qed.

(** X6.  The discountable subtotal ([excludeNonDiscounts]) is the plain
    subtotal when every item allows discounts, and it is 0, with no
    collaborator consulted, when no item does. *)
Theorem getSubtotal_excludeNonDiscounts `{Imports} (this : TotalsService)
  (x : CartOrOrder) :
  (forallb LineItem.allow_discounts (CO.items x) = true ->
   getSubtotal this x {| SubtotalOptions.excludeNonDiscounts := true |} =
   getSubtotal this x {| SubtotalOptions.excludeNonDiscounts := false |}) /\
  (forallb (fun i => negb (LineItem.allow_discounts i)) (CO.items x) = true ->
   getSubtotal this x {| SubtotalOptions.excludeNonDiscounts := true |} = Ok 0).
Proof.
  unfold getSubtotal. cbn [SubtotalOptions.excludeNonDiscounts]. split.
  - intros Hall. f_equal. apply foldM_ext. intros acc item Hin.
    rewrite forallb_forall in Hall. now rewrite (Hall item Hin).
  - intros Hnone.
    match goal with
    | |- foldM ?f _ _ ≫= _ = _ =>
        assert (Hloop : forall l acc,
          forallb (fun i => negb (LineItem.allow_discounts i)) l = true ->
          foldM f l acc = Ok acc)
    end.
    { induction l as [| i l IH]; intros acc Hl; [reflexivity |].
      cbn [forallb] in Hl. apply andb_true_iff in Hl. destruct Hl as [Hi Hl].
      cbn [foldM]. apply negb_true_iff in Hi. rewrite Hi.
      cbn [mbind result_bind]. now apply IH. }
    rewrite Hloop by exact Hnone. reflexivity.
Qed.

(** X7.  For an aggregate that carries a FREE_SHIPPING discount, the
    shipping total [getShippingTotal] returns is 0, whatever the prices
    and tax lines of its shipping methods. *)
Theorem getShippingTotal_free_shipping `{Imports} (this : TotalsService)
  (x : CartOrOrder) (v : Q) :
  carriesFreeShipping x ->
  getShippingTotal this x = Ok v ->
  v == 0.
Proof.
  intros Hfree Hv. apply carriesFreeShipping_hasFreeShipping in Hfree.
  unfold getShippingTotal in Hv.
  apply (foldM_invariant (fun total => total == 0) _ _ _ _ (Qeq_refl 0)) in Hv;
    [exact Hv |].
  intros acc shippingMethod acc' _ Hacc Hstep.
  apply bind_Ok in Hstep. destruct Hstep as (totals & Htotals & Hstep).
  inversion Hstep; subst acc'. clear Hstep.
  unfold getShippingMethodTotals in Htotals. apply bind_Ok in Htotals.
  destruct Htotals as (t & _ & Ht). inversion Ht; subst totals.
  unfold freeShippingOverride. rewrite Hfree.
  cbn [ShippingMethodTotals.subtotal]. rewrite Hacc. ring.
Qed.

(** X8.  When the adjustments of the line items sum to an amount that
    rounds to 0 (in particular when no item carries an adjustment), the
    discount total is 0 whatever the discounts of the aggregate are. *)
Theorem getDiscountTotal_without_adjustments `{Imports} (this : TotalsService)
  (x : CartOrOrder) (v : Q) :
  Math_round (getLineItemAdjustmentsTotal x) = 0 ->
  getDiscountTotal this x = Ok v ->
  v = 0.
Proof.
  intros Hzero Hv. unfold getDiscountTotal in Hv. apply bind_Ok in Hv.
  destruct Hv as (s & Hs & Hv). rewrite Hzero in Hv.
  destruct (getSubtotal_integer _ _ _ _ Hs) as [z ->].
  destruct (Qltb (inject_Z z) 0) eqn:Hneg; inversion Hv; subst v; clear Hv.
  - apply Qltb_lt in Hneg. change 0 with (inject_Z 0).
    rewrite rounded_Qmax_integers. unfold Qmax, GenericMinMax.gmax.
    destruct (inject_Z z ?= inject_Z 0) eqn:Hcmp; try reflexivity; exfalso.
    + apply Qeq_alt in Hcmp. change (inject_Z 0) with 0 in Hcmp. lra.
    + apply Qgt_alt in Hcmp. change (inject_Z 0) with 0 in Hcmp. lra.
  - apply Qltb_ge in Hneg. change 0 with (inject_Z 0).
    rewrite rounded_Qmin_integers. unfold Qmin, GenericMinMax.gmin.
    destruct (inject_Z z ?= inject_Z 0) eqn:Hcmp; try reflexivity.
    + apply Qeq_alt in Hcmp. unfold Qeq in Hcmp. cbn in Hcmp.
      f_equal. lia.
    + exfalso. apply Qlt_alt in Hcmp. change (inject_Z 0) with 0 in Hcmp. lra.
Qed.

(** ** Breakdowns *)

(** The balance of a line breakdown under the new tax system. *)
Lemma lineItemTotals_balance `{Imports} (this : TotalsService)
  (lineItem : LineItem.t) (x : CartOrOrder) (options : LineItemTotalsOptions.t)
  (t : LineItemTotals.t) :
  CO.tax_rate x = None ->
  LineItemTotalsOptions.include_tax options = true ->
  getLineItemTotals this lineItem x options = Ok t ->
  LineItemTotals.total t ==
    LineItemTotals.subtotal t - LineItemTotals.discount_total t
    + LineItemTotals.tax_total t /\
  LineItemTotals.original_total t ==
    LineItemTotals.subtotal t + LineItemTotals.original_tax_total t.
Proof.
  intros Hr Hinc Ht. unfold getLineItemTotals in Ht. rewrite Hinc, Hr in Ht.
  apply bind_Ok in Ht. destruct Ht as ([t0 tl] & Hlines & Ht).
  apply bind_Ok in Hlines. destruct Hlines as (taxLines & _ & Hlines).
  inversion Hlines; subst t0 tl; clear Hlines.
  destruct taxLines as [tax_lines |]; [| discriminate].
  unfold lineItemTax in Ht.
  destruct (taxInclusivePricing this), (LineItem.includes_tax lineItem);
    cbn [andb] in Ht;
    (destruct (0 <? length tax_lines)%nat;
     [ apply bind_Ok in Ht; destruct Ht as (tax_total & _ & Ht);
       apply bind_Ok in Ht; destruct Ht as (original_tax_total & _ & Ht) |]);
    inversion Ht; subst t; cbn; split; ring.
Qed.

(** X9.  Under the new tax system (a cart, or an order without tax rate)
    every breakdown [getLineItemTotals] returns with [include_tax]
    balances: [total = subtotal - discount_total + tax_total] and
    [original_total = subtotal + original_tax_total]; its discount total
    is an integer and its unit price and quantity are the item's. *)
Theorem getLineItemTotals_balance `{Imports} (this : TotalsService)
  (lineItem : LineItem.t) (x : CartOrOrder) (options : LineItemTotalsOptions.t)
  (t : LineItemTotals.t) :
  CO.tax_rate x = None ->
  LineItemTotalsOptions.include_tax options = true ->
  getLineItemTotals this lineItem x options = Ok t ->
  LineItemTotals.total t ==
    LineItemTotals.subtotal t - LineItemTotals.discount_total t
    + LineItemTotals.tax_total t /\
  LineItemTotals.original_total t ==
    LineItemTotals.subtotal t + LineItemTotals.original_tax_total t /\
  isInteger (LineItemTotals.discount_total t) /\
  LineItemTotals.unit_price t = LineItem.unit_price lineItem /\
  LineItemTotals.quantity t = LineItem.quantity lineItem.
Proof.
  intros Hr Hinc Ht.
  destruct (lineItemTotals_balance this lineItem x options t Hr Hinc Ht)
    as [Htotal Horiginal].
  split; [exact Htotal |]. split; [exact Horiginal |].
  unfold getLineItemTotals in Ht. rewrite Hinc, Hr in Ht.
  apply bind_Ok in Ht. destruct Ht as ([t0 tl] & Hlines & Ht).
  apply bind_Ok in Hlines. destruct Hlines as (taxLines & _ & Hlines).
  inversion Hlines; subst t0 tl; clear Hlines.
  destruct taxLines as [tax_lines |]; [| discriminate].
  unfold lineItemTax in Ht.
  destruct (0 <? length tax_lines)%nat;
    [ apply bind_Ok in Ht; destruct Ht as (tax_total & _ & Ht);
      apply bind_Ok in Ht; destruct Ht as (original_tax_total & _ & Ht);
      destruct (taxInclusivePricing this && LineItem.includes_tax lineItem) |];
    inversion Ht; subst t; cbn;
    (split; [eexists; reflexivity | split; reflexivity]).
Qed.


(** X11.  Under the new tax system and without FREE_SHIPPING discount,
    every breakdown [getShippingMethodTotals] returns balances:
    [total = subtotal + tax_total], the original figures equal the current
    ones and the price is the method's. *)
Theorem getShippingMethodTotals_balance `{Imports} (this : TotalsService)
  (shippingMethod : ShippingMethod.t) (x : CartOrOrder)
  (opts : GetShippingMethodTotalsOptions.t) (b : ShippingMethodTotals.t) :
  CO.tax_rate x = None ->
  hasFreeShipping x = false ->
  getShippingMethodTotals this shippingMethod x opts = Ok b ->
  ShippingMethodTotals.total b ==
    ShippingMethodTotals.subtotal b + ShippingMethodTotals.tax_total b /\
  ShippingMethodTotals.original_total b = ShippingMethodTotals.total b /\
  ShippingMethodTotals.original_tax_total b = ShippingMethodTotals.tax_total b /\
  ShippingMethodTotals.price b = ShippingMethod.price shippingMethod.
Proof.
  intros Hr Hfree Hb. unfold getShippingMethodTotals in Hb.
  apply bind_Ok in Hb. destruct Hb as (t & Ht & Hb).
  unfold freeShippingOverride in Hb. rewrite Hfree in Hb.
  inversion Hb; subst b; clear Hb.
  destruct (GetShippingMethodTotalsOptions.include_tax opts).
  - apply bind_Ok in Ht. destruct Ht as (t0 & Ht0 & Ht).
    unfold shippingMethodTaxLines in Ht0. rewrite Hr in Ht0.
    cbn [ShippingMethodTotals.tax_lines] in Ht0.
    assert (Hshape : exists lines,
      t0 = {| ShippingMethodTotals.price := ShippingMethod.price shippingMethod;
              ShippingMethodTotals.original_total := ShippingMethod.price shippingMethod;
              ShippingMethodTotals.total := ShippingMethod.price shippingMethod;
              ShippingMethodTotals.subtotal := ShippingMethod.price shippingMethod;
              ShippingMethodTotals.original_tax_total := 0;
              ShippingMethodTotals.tax_total := 0;
              ShippingMethodTotals.tax_lines := lines |}).
    { destruct (length (default [] (ShippingMethod.tax_lines shippingMethod)) =? 0)%nat.
      - apply bind_Ok in Ht0. destruct Ht0 as (orderLines & _ & Ht0).
        match type of Ht0 with
        | (if ?c then _ else _) = _ => destruct c; [discriminate |]
        end.
        inversion Ht0. eexists; reflexivity.
      - inversion Ht0. eexists; reflexivity. }
    destruct Hshape as [lines ->].
    unfold shippingMethodTax in Ht. cbn [ShippingMethodTotals.tax_lines] in Ht.
    destruct (0 <? length lines)%nat.
    + apply bind_Ok in Ht. destruct Ht as (amount & _ & Ht).
      destruct (taxInclusivePricing this && ShippingMethod.includes_tax shippingMethod);
        inversion Ht; subst t; cbn; (split; [ring | repeat split]).
    + inversion Ht; subst t; cbn. split; [ring | repeat split].
  - inversion Ht; subst t; cbn. split; [ring | repeat split].
Qed.

(** ** The subtotal as a sum of prices *)

Lemma foldM_sum {A : Type} (f : Q -> A -> result Q) (g : A -> Q) (l : list A) :
  (forall acc x acc', List.In x l -> f acc x = Ok acc' -> acc' == acc + g x) ->
  forall acc r, foldM f l acc = Ok r ->
                r == acc + fold_right (fun x s => g x + s) 0 l.
Proof.
  induction l as [| x l IH]; intros Hstep acc r Hr; cbn [foldM fold_right] in *.
  - inversion Hr; subst. ring.
  - apply bind_Ok in Hr. destruct Hr as (acc' & Hx & Hr).
    apply IH in Hr; [| intros a y a' Hy; apply Hstep; now right].
    rewrite Hr, (Hstep acc x acc') by (now left || exact Hx). ring.
Qed.

Lemma getLineItemTotals_plain_subtotal `{Imports} (this : TotalsService)
  (lineItem : LineItem.t) (x : CartOrOrder) (options : LineItemTotalsOptions.t)
  (t : LineItemTotals.t) :
  taxInclusivePricing this = false ->
  (is_Some (CO.tax_rate x) -> LineItem.includes_tax lineItem = false) ->
  getLineItemTotals this lineItem x options = Ok t ->
  LineItemTotals.subtotal t ==
    LineItem.unit_price lineItem * LineItem.quantity lineItem.
Proof.
  intros Hoff Hincl Ht. unfold getLineItemTotals in Ht.
  rewrite Hoff in Ht. cbn [andb] in Ht.
  apply bind_Ok in Ht. destruct Ht as ([t0 tl] & Hlines & Ht).
  assert (Ht0 : LineItemTotals.subtotal t0 ==
                LineItem.unit_price lineItem * LineItem.quantity lineItem).
  { destruct (LineItemTotalsOptions.include_tax options).
    - destruct (CO.tax_rate x) as [r |].
      + inversion Hlines; subst t0 tl. cbn.
        rewrite Hincl by (eexists; reflexivity). cbn [negb]. ring.
      + apply bind_Ok in Hlines. destruct Hlines as (taxLines & _ & Hlines).
        inversion Hlines; subst t0 tl. reflexivity.
    - inversion Hlines; subst t0 tl. reflexivity. }
  destruct tl as [tax_lines |]; [| discriminate].
  unfold lineItemTax in Ht. rewrite Hoff in Ht. cbn [andb] in Ht.
  destruct (0 <? length tax_lines)%nat;
    [ apply bind_Ok in Ht; destruct Ht as (tax_total & _ & Ht);
      apply bind_Ok in Ht; destruct Ht as (original_tax_total & _ & Ht) |];
    inversion Ht; subst t; cbn; exact Ht0.
Qed.

(** X12.  With tax-inclusive pricing disabled, the subtotal
    [getSubtotal] returns is the rounded sum of [unit_price * quantity]
    over the items, for a cart and for an order (for an order with a tax
    rate: provided no item is marked as including tax): discounts,
    adjustments and tax amounts do not enter it. *)
Theorem getSubtotal_sum_of_prices `{Imports} (this : TotalsService)
  (x : CartOrOrder) (v : Q) :
  taxInclusivePricing this = false ->
  (is_Some (CO.tax_rate x) ->
   forallb (fun i => negb (LineItem.includes_tax i)) (CO.items x) = true) ->
  getSubtotal this x noSubtotalOptions = Ok v ->
  v = rounded (priceSum (CO.items x)).
Proof.
  intros Hoff Hincl Hv. unfold getSubtotal in Hv.
  apply bind_Ok in Hv. destruct Hv as (subtotal & Hloop & Hv).
  inversion Hv; subst v; clear Hv. unfold rounded. apply Math_round_comp.
  apply (foldM_sum _ (fun i => LineItem.unit_price i * LineItem.quantity i)) in Hloop.
  - rewrite Hloop. unfold priceSum. ring.
  - intros acc item acc' Hin Hstep.
    cbn [SubtotalOptions.excludeNonDiscounts noSubtotalOptions] in Hstep.
    apply bind_Ok in Hstep. destruct Hstep as (s & Hs & Hstep).
    inversion Hstep; subst acc'; clear Hstep.
    apply bind_Ok in Hs. destruct Hs as (t & Ht & Hs).
    inversion Hs; subst s; clear Hs.
    apply getLineItemTotals_plain_subtotal in Ht; [now rewrite Ht | exact Hoff |].
    intros Hlegacy. specialize (Hincl Hlegacy).
    rewrite forallb_forall in Hincl. apply negb_true_iff. now apply Hincl.
Qed.

(** ** Line item total *)

(** X13.  Under the new tax system, [getLineItemTotal] with [include_tax]
    adds the discount total to the subtotal where the breakdown's [total]
    deducts it: it returns the breakdown's total plus twice the discount
    total, and plus once the discount total under [exclude_discounts]. *)
Theorem getLineItemTotal_adds_discount `{Imports} (this : TotalsService)
  (lineItem : LineItem.t) (x : CartOrOrder) (exclude_discounts : bool)
  (t : LineItemTotals.t) :
  CO.tax_rate x = None ->
  getLineItemTotals this lineItem x
    {| LineItemTotalsOptions.include_tax := true;
       LineItemTotalsOptions.use_tax_lines := false;
       LineItemTotalsOptions.exclude_gift_cards := false;
       LineItemTotalsOptions.calculation_context := None |} = Ok t ->
  exists v,
    getLineItemTotal this lineItem x
      {| GetLineItemTotalOptions.include_tax := true;
         GetLineItemTotalOptions.exclude_discounts := exclude_discounts |} = Ok v /\
    v == LineItemTotals.total t
         + (if exclude_discounts then 1 else 2) * LineItemTotals.discount_total t.
Proof.
  intros Hr Ht.
  pose proof (fun Hinc => lineItemTotals_balance this lineItem x _ t Hr Hinc Ht)
    as Hbalance.
  destruct (Hbalance eq_refl) as [Htotal _]. clear Hbalance.
  unfold getLineItemTotal. cbn [GetLineItemTotalOptions.include_tax
    GetLineItemTotalOptions.exclude_discounts]. rewrite Ht.
  cbn [mbind result_bind]. eexists. split; [reflexivity |].
  rewrite Htotal. destruct exclude_discounts; cbn [negb]; ring.
Qed.

(** ** Gift-cardable amount *)

(** X14.  In a region where gift cards are taxable the gift-cardable
    amount is [subtotal - discountTotal], and it is returned exactly when
    these two are.  Elsewhere it is the total without gift cards,
    [subtotal + taxTotal + shippingTotal - discountTotal] with a [null]
    tax total read as 0, returned whenever these four are. *)
Theorem getGiftCardableAmount_cases `{Imports} (this : TotalsService)
  (x : CartOrOrder) :
  (Region.gift_cards_taxable (CO.region x) = true ->
   forall v,
     getGiftCardableAmount this x = Ok v <->
     exists s d,
       getSubtotal this x noSubtotalOptions = Ok s /\
       getDiscountTotal this x = Ok d /\ v = s - d) /\
  (Region.gift_cards_taxable (CO.region x) = false ->
   (forall v,
      getGiftCardableAmount this x = Ok v ->
      exists s t d sh,
        getSubtotal this x noSubtotalOptions = Ok s /\
        getTaxTotal this x false = Ok t /\
        getDiscountTotal this x = Ok d /\
        getShippingTotal this x = Ok sh /\
        v == s + default 0 t + sh - d) /\
   (forall s t d sh,
      getSubtotal this x noSubtotalOptions = Ok s ->
      getTaxTotal this x false = Ok t ->
      getDiscountTotal this x = Ok d ->
      getShippingTotal this x = Ok sh ->
      exists v, getGiftCardableAmount this x = Ok v)).
Proof.
  unfold getGiftCardableAmount. split; intros Htaxable; rewrite Htaxable.
  - intros v. split.
    + intros Hv. apply bind_Ok in Hv. destruct Hv as (s & Hs & Hv).
      apply bind_Ok in Hv. destruct Hv as (d & Hd & Hv).
      inversion Hv. now exists s, d.
    + intros (s & d & Hs & Hd & ->). now rewrite Hs, Hd.
  - unfold getTotal.
    cbn [GetTotalsOptions.exclude_gift_cards GetTotalsOptions.force_taxes]. split.
    + intros v Hv. apply bind_Ok in Hv. destruct Hv as (s & Hs & Hv).
      apply bind_Ok in Hv. destruct Hv as (t & Ht & Hv).
      apply bind_Ok in Hv. destruct Hv as (d & Hd & Hv).
      apply bind_Ok in Hv. destruct Hv as (g & Hg & Hv).
      apply bind_Ok in Hv. destruct Hv as (sh & Hsh & Hv).
      inversion Hg; subst g. inversion Hv; subst v.
      exists s, t, d, sh. repeat split; try assumption. ring.
    + intros s t d sh Hs Ht Hd Hsh. rewrite Hs, Ht, Hd. cbn [mbind result_bind].
      rewrite Hsh. eexists; reflexivity.
Qed.

(** ** Refund of a line item *)

(** X15.  [getLineItemRefund] fails in one case only: the order has no
    tax rate and the item's tax lines are not joined; the error is then
    UnexpectedState "Tax calculation did not receive tax_lines". *)
Theorem getLineItemRefund_fails `{Imports} (this : TotalsService) (o : Order.t)
  (lineItem : LineItem.t) (e : error) :
  getLineItemRefund this o lineItem = Throw e <->
  Order.tax_rate o = None /\ LineItem.tax_lines lineItem = None /\
  e = MedusaError UNEXPECTED_STATE "Tax calculation did not receive tax_lines".
Proof.
  unfold getLineItemRefund.
  destruct (Order.tax_rate o) as [r |], (LineItem.tax_lines lineItem) as [lines |];
    split; try discriminate;
    try (intros (Hr & Hl & He); discriminate).
  - intros [= <-]. now repeat split.
  - intros (_ & _ & ->). reflexivity.
Qed.

(** X16.  For an order with a tax rate none of whose items has quantity
    0, and an item whose price does not include tax, [getLineItemRefund]
    returns [rounded(S * (1 + tax_rate / 100))], where [S] is
    [unit_price * quantity] minus [quantity] times the per-unit discount
    of the allocation map, the quotient, the sum and the products with
    them taken in double precision; the item's tax lines are not read. *)
Theorem getLineItemRefund_legacy `{Imports} (this : TotalsService) (o : Order.t)
  (lineItem : LineItem.t) (r : Q) :
  Order.tax_rate o = Some r ->
  taxInclusivePricing this && LineItem.includes_tax lineItem = false ->
  quantitiesNonZero (AnOrder o) ->
  getLineItemRefund this o lineItem =
  Ok (rounded
        (fmul
           (fsub (LineItem.unit_price lineItem * LineItem.quantity lineItem)
              (fmul (unitDiscount (getAllocationMap (AnOrder o) noAllocationMapOptions)
                       (LineItem.id lineItem))
                 (LineItem.quantity lineItem)))
           (fadd 1 (fdiv r 100)))).
Proof.
  intros Hr Hinc _. unfold getLineItemRefund. rewrite Hr, Hinc. cbn [negb].
  do 3 f_equal. apply fl_comp. ring.
Qed.

Lemma Math_round_error (v : Q) : Qabs (Math_round v - v) <= 1 # 2.
Proof.
  pose proof (Math_round_lower v). pose proof (Math_round_upper v).
  apply Qabs_case; intros; lra.
Qed.


(** ** Discount of a line *)

(** X18.  [calculateDiscount_] for a fixed value: nothing for an item that
    does not allow discounts; for a per-unit value of at most the unit
    price the amount is at most the line's price; for a per-unit value
    strictly between the unit price and the line's price the amount is
    [value * quantity], above the line's price: the cap only applies from
    the line's price on. *)
Theorem calculateDiscount_fixed (lineItem : LineItem.t) (variant : string)
  (variantPrice value : Q) (discountType : DiscountRuleType) :
  let amount :=
    LineDiscount.amount
      (calculateDiscount_ lineItem variant variantPrice value discountType) in
  let linePrice := variantPrice * LineItem.quantity lineItem in
  (LineItem.allow_discounts lineItem = false -> amount = 0) /\
  (LineItem.allow_discounts lineItem = true -> discountType <> PERCENTAGE ->
   (0 <= LineItem.quantity lineItem -> value <= variantPrice ->
    amount <= linePrice) /\
   (linePrice <= value -> amount = linePrice) /\
   (0 < LineItem.quantity lineItem -> variantPrice < value -> value < linePrice ->
    amount = value * LineItem.quantity lineItem /\ linePrice < amount)).
Proof.
  cbv zeta. unfold calculateDiscount_. split.
  - intros ->. reflexivity.
  - intros -> Htype. cbn [negb].
    assert (Hnot : DiscountRuleType_eqb discountType PERCENTAGE = false)
      by (destruct discountType; [reflexivity | contradiction | reflexivity]).
    rewrite Hnot. cbn [LineDiscount.amount].
    destruct (Qle_bool (variantPrice * LineItem.quantity lineItem) value) eqn:Hcap.
    + apply Qle_bool_iff in Hcap. split; [| split].
      * intros _ _. apply Qle_refl.
      * reflexivity.
      * intros _ _ Hlt. lra.
    + assert (Hlt : value < variantPrice * LineItem.quantity lineItem).
      { apply Qnot_le_lt. intros Hle. apply Qle_bool_iff in Hle. congruence. }
      split; [| split].
      * intros Hq Hv. apply Qmult_le_compat_r; assumption.
      * intros Hle. lra.
      * intros Hq Hv _. split; [reflexivity |].
        apply Qmult_lt_compat_r; assumption.
Qed.

(** X19.  [calculateDiscount_] for a percentage between 0 and 100 of a
    non-negative line price, the quotient by 100 and the product with the
    value taken in double precision: the amount is not negative, it is
    [linePrice * value / 100] up to two roundings, and so at most the
    line's price up to two roundings. *)
Theorem calculateDiscount_percentage (lineItem : LineItem.t) (variant : string)
  (variantPrice value : Q) :
  LineItem.allow_discounts lineItem = true ->
  0 <= variantPrice * LineItem.quantity lineItem ->
  0 <= value -> value <= 100 ->
  let amount :=
    LineDiscount.amount
      (calculateDiscount_ lineItem variant variantPrice value PERCENTAGE) in
  let linePrice := variantPrice * LineItem.quantity lineItem in
  0 <= amount /\
  linePrice * value / 100 * ((1 - unitRoundoff) * (1 - unitRoundoff)) <= amount /\
  amount <= linePrice * value / 100 * ((1 + unitRoundoff) * (1 + unitRoundoff)) /\
  amount <= linePrice * ((1 + unitRoundoff) * (1 + unitRoundoff)).
Proof.
  intros Hallow Hprice Hlow Hhigh. cbv zeta. unfold calculateDiscount_.
  rewrite Hallow. cbn [negb DiscountRuleType_eqb LineDiscount.amount].
  set (p := variantPrice * LineItem.quantity lineItem) in *.
  unfold fmul, fdiv.
  assert (Hu : unitRoundoff == 1 # 9007199254740992) by reflexivity.
  assert (Hq : 0 <= p / 100).
  { assert (Heq : p / 100 == p * (1 # 100)) by field. rewrite Heq. lra. }
  destruct (fl_error (p / 100) Hq) as [Hlo Hhi].
  set (a := fl (p / 100)) in *.
  assert (Heq : p / 100 == p * (1 # 100)) by field.
  rewrite Heq in Hlo, Hhi. clear Heq Hq.
  assert (Ha : 0 <= a) by (rewrite Hu in Hlo; nra).
  assert (Hav : 0 <= a * value) by nra.
  destruct (fl_error (a * value) Hav) as [Hlo' Hhi'].
  set (amount := fl (a * value)) in *.
  assert (Hex : p * value / 100 == p * (1 # 100) * value) by field.
  rewrite Hex. clearbody amount a p.
  set (u := unitRoundoff) in *. clearbody u.
  set (e := p * (1 # 100)) in *.
  assert (He : 0 <= e) by (unfold e; lra).
  assert (Hep : e * value <= p) by (unfold e; nra).
  clearbody e.
  assert (Hev : 0 <= e * value) by nra.
  assert (Hlo2 : e * value * ((1 - u) * (1 - u)) <= a * value * (1 - u)).
  { assert (0 <= (a - e * (1 - u)) * value * (1 - u)) by (rewrite Hu; nra). lra. }
  assert (Hhi2 : a * value * (1 + u) <= e * value * ((1 + u) * (1 + u))).
  { assert (0 <= (e * (1 + u) - a) * value * (1 + u)) by (rewrite Hu; nra). lra. }
  assert (Hhi3 : e * value * ((1 + u) * (1 + u)) <= p * ((1 + u) * (1 + u))).
  { assert (0 <= (p - e * value) * ((1 + u) * (1 + u))) by (rewrite Hu; nra). lra. }
  repeat split; try lra.
  rewrite Hu in *. nra.
Qed.

Lemma find_head_filter {A : Type} (p : A -> bool) (l : list A) :
  List.find p l = head (List.filter p l).
Proof.
  induction l as [| a l IH]; [reflexivity |]. cbn [List.find List.filter].
  destruct (p a); [reflexivity | exact IH].
Qed.

(** X20.  [getLineItemDiscountAdjustment] reads the first adjustment made
    for the discount where the allocation ([getLineDiscounts]) adds all of
    them up: for an item that allows discounts and has at most one
    adjustment for the discount the two amounts are equal, and without
    one [getLineItemDiscountAdjustment] is 0. *)
Theorem getLineItemDiscountAdjustment_allocation (lineItem : LineItem.t)
  (discount : Discount.t) :
  let matching :=
    List.filter (discount_id_is (Some (Discount.id discount)))
      (default [] (LineItem.adjustments lineItem)) in
  (matching = [] -> getLineItemDiscountAdjustment lineItem discount = 0) /\
  (LineItem.allow_discounts lineItem = true -> (length matching <= 1)%nat ->
   LineDiscountAmount.amount (lineDiscountAmount (Some discount) lineItem) ==
   getLineItemDiscountAdjustment lineItem discount).
Proof.
  cbv zeta. unfold getLineItemDiscountAdjustment, lineDiscountAmount.
  cbn [LineDiscountAmount.amount].
  assert (Hfind :
    match LineItem.adjustments lineItem with
    | Some adjustments =>
        List.find (discount_id_is (Some (Discount.id discount))) adjustments
    | None => None
    end =
    head (List.filter (discount_id_is (Some (Discount.id discount)))
            (default [] (LineItem.adjustments lineItem)))).
  { destruct (LineItem.adjustments lineItem); [apply find_head_filter | reflexivity]. }
  rewrite Hfind.
  set (matching := List.filter _ _). clearbody matching. split.
  - intros ->. reflexivity.
  - intros -> Hlen. destruct matching as [| a [| b rest]]; cbn in *.
    + reflexivity.
    + unfold sumAdjustments. cbn. ring.
    + lia.
Qed.

(** ** The shipping total as a sum of prices *)

Lemma getShippingMethodTotals_plain_subtotal `{Imports} (this : TotalsService)
  (shippingMethod : ShippingMethod.t) (x : CartOrOrder)
  (opts : GetShippingMethodTotalsOptions.t) (b : ShippingMethodTotals.t) :
  taxInclusivePricing this = false ->
  hasFreeShipping x = false ->
  getShippingMethodTotals this shippingMethod x opts = Ok b ->
  ShippingMethodTotals.subtotal b = ShippingMethod.price shippingMethod.
Proof.
  intros Hoff Hfree Hb. unfold getShippingMethodTotals in Hb.
  apply bind_Ok in Hb. destruct Hb as (t & Ht & Hb).
  unfold freeShippingOverride in Hb. rewrite Hfree in Hb.
  inversion Hb; subst b; clear Hb.
  destruct (GetShippingMethodTotalsOptions.include_tax opts);
    [| inversion Ht; reflexivity].
  apply bind_Ok in Ht. destruct Ht as (t0 & Ht0 & Ht).
  assert (Hsub : ShippingMethodTotals.subtotal t0 = ShippingMethod.price shippingMethod).
  { unfold shippingMethodTaxLines in Ht0.
    destruct (CO.tax_rate x); [inversion Ht0; reflexivity |].
    cbn [ShippingMethodTotals.tax_lines] in Ht0.
    destruct (length (default [] (ShippingMethod.tax_lines shippingMethod)) =? 0)%nat;
      [| inversion Ht0; reflexivity].
    apply bind_Ok in Ht0. destruct Ht0 as (orderLines & _ & Ht0).
    match type of Ht0 with
    | (if ?c then _ else _) = _ => destruct c; [discriminate |]
    end.
    inversion Ht0; reflexivity. }
  unfold shippingMethodTax in Ht. rewrite Hoff in Ht. cbn [andb] in Ht.
  destruct (0 <? length (ShippingMethodTotals.tax_lines t0))%nat;
    [apply bind_Ok in Ht; destruct Ht as (amount & _ & Ht) |];
    inversion Ht; subst t; cbn; exact Hsub.
Qed.

(** X21.  With tax-inclusive pricing disabled and no FREE_SHIPPING
    discount, the shipping total [getShippingTotal] returns is the sum of
    the prices of the shipping methods, under both tax systems: the
    shipping tax does not enter it. *)
Theorem getShippingTotal_sum_of_prices `{Imports} (this : TotalsService)
  (x : CartOrOrder) (v : Q) :
  taxInclusivePricing this = false ->
  hasFreeShipping x = false ->
  getShippingTotal this x = Ok v ->
  v == shippingPriceSum (CO.shipping_methods x).
Proof.
  intros Hoff Hfree Hv. unfold getShippingTotal in Hv.
  apply (foldM_sum _ ShippingMethod.price) in Hv.
  - rewrite Hv. unfold shippingPriceSum. ring.
  - intros acc shippingMethod acc' _ Hstep.
    apply bind_Ok in Hstep. destruct Hstep as (totals & Htotals & Hstep).
    inversion Hstep; subst acc'.
    now rewrite (getShippingMethodTotals_plain_subtotal _ _ _ _ _ Hoff Hfree Htotals).
Qed.

(** ** The refund total and the order of the request *)

Lemma refund_loop_Ok_present `{Imports} (this : TotalsService) (o : Order.t)
  (lineItems : list LineItem.t) (acc r : list Q) :
  foldM (fun refunds item =>
    if negb (existsb (String.eqb (LineItem.id item)) (refundableItemIds o)) then
      Throw (MedusaError INVALID_DATA "Line item does not exist on order")
    else
      refund ← getLineItemRefund this o item;
      Ok (refunds ++ [refund])) lineItems acc = Ok r ->
  Forall (onOrder o) lineItems.
Proof.
  revert acc. induction lineItems as [| item l IH]; intros acc Hr; [constructor |].
  cbn [foldM] in Hr. apply bind_Ok in Hr. destruct Hr as (acc' & Hitem & Hr).
  constructor; [| now apply (IH acc')].
  apply refundable_onOrder.
  destruct (existsb (String.eqb (LineItem.id item)) (refundableItemIds o));
    [reflexivity | discriminate].
Qed.

Lemma mapM_Permutation {A B : Type} (f : A -> result B) (l l' : list A) :
  Permutation l l' ->
  forall rs, mapM f l = Ok rs ->
             exists rs', mapM f l' = Ok rs' /\ Permutation rs rs'.
Proof.
  induction 1 as [| x l l' Hperm IH | x y l | l l' l'' H1 IH1 H2 IH2];
    intros rs Hrs.
  - exists rs. split; [exact Hrs | reflexivity].
  - cbn [mapM] in *. apply bind_Ok in Hrs. destruct Hrs as (r & Hr & Hrs).
    apply bind_Ok in Hrs. destruct Hrs as (rest & Hrest & Hrs).
    inversion Hrs; subst rs. destruct (IH rest Hrest) as (rest' & Hrest' & Hp).
    exists (r :: rest'). rewrite Hr, Hrest'. split; [reflexivity | now constructor].
  - cbn [mapM] in *. apply bind_Ok in Hrs. destruct Hrs as (ry & Hy & Hrs).
    apply bind_Ok in Hrs. destruct Hrs as (tail & Htail & Hrs).
    inversion Hrs; subst rs. clear Hrs.
    apply bind_Ok in Htail. destruct Htail as (rx & Hx & Htail).
    apply bind_Ok in Htail. destruct Htail as (rest & Hrest & Htail).
    inversion Htail; subst tail.
    exists (rx :: ry :: rest). rewrite Hx, Hy, Hrest.
    split; [reflexivity | apply perm_swap].
  - destruct (IH1 rs Hrs) as (rs' & Hrs' & Hp1).
    destruct (IH2 rs' Hrs') as (rs'' & Hrs'' & Hp2).
    exists rs''. split; [exact Hrs'' | now transitivity rs'].
Qed.

Lemma sumRefunds_fold_right (refunds : list Q) (acc : Q) :
  fold_left (fun acc next => acc + next) refunds acc ==
  acc + fold_right Qplus 0 refunds.
Proof.
  revert acc. induction refunds as [| r refunds IH]; intros acc; cbn [fold_left fold_right].
  - ring.
  - rewrite IH. ring.
Qed.

Lemma sumRefunds_Permutation (rs rs' : list Q) :
  Permutation rs rs' -> sumRefunds rs == sumRefunds rs'.
Proof.
  intros Hperm. unfold sumRefunds. rewrite !sumRefunds_fold_right.
  apply Qplus_comp; [reflexivity |].
  induction Hperm as [| x l l' Hperm IH | x y l | l l' l'' H1 IH1 H2 IH2];
    cbn [fold_right].
  - reflexivity.
  - now rewrite IH.
  - ring.
  - now rewrite IH1.
Qed.

(** X22.  The refund total does not depend on the order in which the
    line items are requested: whatever [getRefundTotal] returns for a
    list, it returns for every permutation of it. *)
Theorem getRefundTotal_order_irrelevant `{Imports} (this : TotalsService)
  (o : Order.t) (lineItems lineItems' : list LineItem.t) (v : Q) :
  Permutation lineItems lineItems' ->
  getRefundTotal this o lineItems = Ok v ->
  getRefundTotal this o lineItems' = Ok v.
Proof.
  intros Hperm Hv. unfold getRefundTotal in *.
  apply bind_Ok in Hv. destruct Hv as (refunds & Hloop & Hv).
  inversion Hv; subst v; clear Hv.
  pose proof (refund_loop_Ok_present _ _ _ _ _ Hloop) as Hall.
  rewrite (refund_loop_present this o lineItems [] Hall) in Hloop.
  apply bind_Ok in Hloop. destruct Hloop as (rs & Hrs & Hloop).
  inversion Hloop; subst refunds; clear Hloop.
  destruct (mapM_Permutation _ _ _ Hperm rs Hrs) as (rs' & Hrs' & Hp).
  assert (Hall' : Forall (onOrder o) lineItems').
  { rewrite Forall_forall in *. intros i Hi. apply Hall.
    rewrite list_elem_of_In in *. now apply (Permutation_in _ (Permutation_sym Hperm)). }
  rewrite (refund_loop_present this o lineItems' [] Hall'), Hrs'.
  cbn [mbind result_bind app]. f_equal. unfold rounded.
  apply Math_round_comp. symmetry. now apply sumRefunds_Permutation.
Qed.

(** * Further examples *)

Section FurtherExamples.
#[local] Existing Instance sampleImports.


(** X4 at the refund example: the refund of three units of 500 at the
    rate 20 is the integer 1800. *)
Lemma totals_are_integers_witness :
  getRefundTotal plainService refundExampleOrder [refundExampleItem] = Ok 1800 /\
  isInteger 1800.
Proof.
  split; [vm_compute; reflexivity |].
  destruct (totals_are_integers plainService (AnOrder refundExampleOrder))
    as (_ & _ & _ & Hrefund).
  apply (Hrefund refundExampleOrder [refundExampleItem]).
  - repeat constructor. intros Hq. vm_compute in Hq. discriminate Hq.
  - vm_compute. reflexivity.
Defined.


(** X7 at the cart with a FREE_SHIPPING discount and a method of 50. *)
Lemma getShippingTotal_free_shipping_witness :
  exists v, getShippingTotal taxingService (ACart freeShippingCart) = Ok v /\ v == 0.
Proof.
  exists 0. split; [vm_compute; reflexivity |].
  apply (getShippingTotal_free_shipping taxingService (ACart freeShippingCart) 0).
  - exists [sampleDiscount "disc_free" FREE_SHIPPING],
      (sampleDiscount "disc_free" FREE_SHIPPING).
    split; [reflexivity | split; [left; reflexivity | reflexivity]].
  - vm_compute. reflexivity.
Defined.

(** X8 at an order whose item carries no adjustment. *)
Lemma getDiscountTotal_without_adjustments_witness :
  exists v, getDiscountTotal plainService (AnOrder quarterTaxedOrder) = Ok v /\ v = 0.
Proof.
  destruct (getDiscountTotal plainService (AnOrder quarterTaxedOrder)) as [v | e] eqn:Hv;
    [| vm_compute in Hv; discriminate Hv].
  exists v. split; [reflexivity |].
  apply (getDiscountTotal_without_adjustments plainService
           (AnOrder quarterTaxedOrder) v); [vm_compute; reflexivity | exact Hv].
Defined.

(** X9 at an item of 1000 with a discount of 100 on an order of the new
    tax system: total 900 = 1000 - 100 + 0. *)
Lemma getLineItemTotals_balance_witness :
  exists t,
    getLineItemTotals plainService legacyExampleItem (AnOrder discountedOrder)
      lineTotalOptions = Ok t /\
    LineItemTotals.total t ==
      LineItemTotals.subtotal t - LineItemTotals.discount_total t
      + LineItemTotals.tax_total t /\
    LineItemTotals.total t == 900.
Proof.
  destruct (getLineItemTotals plainService legacyExampleItem (AnOrder discountedOrder)
              lineTotalOptions) as [t | e] eqn:Ht; [| vm_compute in Ht; discriminate Ht].
  exists t. split; [reflexivity |].
  destruct (getLineItemTotals_balance plainService legacyExampleItem
              (AnOrder discountedOrder) lineTotalOptions t eq_refl eq_refl Ht)
    as (Htotal & _).
  split; [exact Htotal |].
  vm_compute in Ht. inversion Ht. reflexivity.
Defined.


(** X11 at a method of 50 taxed 5 on a cart without FREE_SHIPPING. *)
Lemma getShippingMethodTotals_balance_witness :
  exists b,
    getShippingMethodTotals taxingService plainShippingMethod (ACart swapCart)
      withTax = Ok b /\
    ShippingMethodTotals.total b ==
      ShippingMethodTotals.subtotal b + ShippingMethodTotals.tax_total b /\
    ShippingMethodTotals.price b = 50.
Proof.
  destruct (getShippingMethodTotals taxingService plainShippingMethod (ACart swapCart)
              withTax) as [b | e] eqn:Hb; [| vm_compute in Hb; discriminate Hb].
  exists b. split; [reflexivity |].
  destruct (getShippingMethodTotals_balance taxingService plainShippingMethod
              (ACart swapCart) withTax b eq_refl eq_refl Hb)
    as (Htotal & _ & _ & Hprice).
  split; [exact Htotal | exact Hprice].
Defined.

(** X12 at the legacy example order: the subtotal is the 1000 of its item. *)
Lemma getSubtotal_sum_of_prices_witness :
  exists v,
    getSubtotal plainService (AnOrder legacyExampleOrder) noSubtotalOptions = Ok v /\
    v = rounded (priceSum (Order.items legacyExampleOrder)) /\
    rounded (priceSum (Order.items legacyExampleOrder)) = 1000.
Proof.
  destruct (getSubtotal plainService (AnOrder legacyExampleOrder) noSubtotalOptions)
    as [v | e] eqn:Hv; [| vm_compute in Hv; discriminate Hv].
  exists v. split; [reflexivity |]. split; [| vm_compute; reflexivity].
  apply (getSubtotal_sum_of_prices plainService (AnOrder legacyExampleOrder) v).
  - reflexivity.
  - intros _. reflexivity.
  - exact Hv.
Defined.

(** X13 at the item of 1000 with a discount of 100: the breakdown's total
    is 900, [getLineItemTotal] returns 1100. *)
Lemma getLineItemTotal_adds_discount_witness :
  exists v,
    getLineItemTotal plainService legacyExampleItem (AnOrder discountedOrder)
      {| GetLineItemTotalOptions.include_tax := true;
         GetLineItemTotalOptions.exclude_discounts := false |} = Ok v /\
    v == 1100.
Proof.
  destruct (getLineItemTotals plainService legacyExampleItem (AnOrder discountedOrder)
              lineTotalOptions) as [t | e] eqn:Ht; [| vm_compute in Ht; discriminate Ht].
  destruct (getLineItemTotal_adds_discount plainService legacyExampleItem
              (AnOrder discountedOrder) false t eq_refl Ht) as (v & Hv & Heq).
  exists v. split; [exact Hv |]. rewrite Heq.
  vm_compute in Ht. inversion Ht. vm_compute. reflexivity.
Defined.

(** X16 at the refund example: three units of 500 at the rate 20. *)
Lemma getLineItemRefund_legacy_witness :
  getLineItemRefund plainService refundExampleOrder refundExampleItem = Ok 1800.
Proof.
  rewrite (getLineItemRefund_legacy plainService refundExampleOrder
             refundExampleItem 20 eq_refl eq_refl).
  - vm_compute. reflexivity.
  - repeat constructor. intros Hq. vm_compute in Hq. discriminate Hq.
Defined.

(** X16, the double-precision product: an item of 50 at the tax rate 13
    is refunded 56, since [50 * (1 + 13 / 100)] is 56.49999999999999 in
    doubles; the exact product 56.5 rounds to 57. *)
Lemma getLineItemRefund_legacy_odd_rate :
  getLineItemRefund plainService thirteenOrder thirteenItem = Ok 56 /\
  rounded (50 * (1 + 13 / 100)) = 57.
Proof.
  split; vm_compute; reflexivity.
Qed.


(** X19 at 10% of three units of 500. *)
Lemma calculateDiscount_percentage_witness :
  LineDiscount.amount (calculateDiscount_ thirdsItem "variant_1" 500 10 PERCENTAGE)
  <= 500 * LineItem.quantity thirdsItem
     * ((1 + unitRoundoff) * (1 + unitRoundoff)).
Proof.
  destruct (calculateDiscount_percentage thirdsItem "variant_1" 500 10)
    as (_ & _ & _ & Hle).
  - reflexivity.
  - vm_compute. discriminate.
  - vm_compute. discriminate.
  - vm_compute. discriminate.
  - exact Hle.
Defined.

(** X19, the roundings are visible: 100% of an item of 7 is
    7.000000000000001, above the line's price. *)
Lemma calculateDiscount_percentage_exceeds :
  LineDiscount.amount
    (calculateDiscount_ (sampleItem "item_1" 7 1 (Some []) (Some []))
       "variant_1" 7 100 PERCENTAGE)
  = 7881299347898369 # 1125899906842624 /\
  7 < 7881299347898369 # 1125899906842624.
Proof.
  split; vm_compute; reflexivity.
Qed.

(** X21 at the legacy example order: the shipping total is the 50 of its
    method, the shipping tax of 13 is not part of it. *)
Lemma getShippingTotal_sum_of_prices_witness :
  exists v,
    getShippingTotal plainService (AnOrder legacyExampleOrder) = Ok v /\
    v == shippingPriceSum (Order.shipping_methods legacyExampleOrder).
Proof.
  exists 50. split; [vm_compute; reflexivity |].
  apply (getShippingTotal_sum_of_prices plainService (AnOrder legacyExampleOrder) 50).
  - reflexivity.
  - reflexivity.
  - vm_compute. reflexivity.
Defined.

(** X22 at a legacy order with two items requested in both orders. *)
Lemma getRefundTotal_order_irrelevant_witness :
  getRefundTotal plainService twoItemOrder [secondRefundItem; refundExampleItem] =
  Ok 2040.
Proof.
  apply (getRefundTotal_order_irrelevant plainService twoItemOrder
           [refundExampleItem; secondRefundItem]).
  - apply perm_swap.
  - vm_compute. reflexivity.
Defined.

End FurtherExamples.
